(** * Delicassy storefront API: a shallow embedding of [main.py] and [schemas.py]

    The request handlers of [main.py] are embedded as functions from the
    state of the document store to an outcome and a new state.  Python
    numbers are embedded as they are at run time: [int] as [Z], [float] as
    IEEE binary64 (the kernel's primitive floats).  Text is modelled as
    strings of 8-bit characters with ASCII letter case. *)

From Stdlib Require Import ZArith NArith Lia List Ascii String Floats.
From stdpp Require Import base option list gmap strings.

Set Warnings "-inexact-float,-register-all".
Open Scope Z_scope.

(** ** Python numbers *)

Module Py.

(** [float(z)]: the binary64 value nearest to [z], ties to even.  (CPython
    raises OverflowError beyond the double range; such integers need more
    than 1000 bits and are not storable in a BSON document.) *)
Definition float_of_int (z : Z) : float :=
  SF2Prim (binary_normalize prec emax z 0 false).

(** A run-time number: [int] or [float]. *)
Inductive number :=
| Int (z : Z)
| Float (f : float).

Definition as_float (x : number) : float :=
  match x with
  | Int z => float_of_int z
  | Float f => f
  end.

(** [x + y], [x - y], [x * y]: exact on two ints, binary64 otherwise
    (the int operand is converted first). *)
Definition add (x y : number) : number :=
  match x, y with
  | Int a, Int b => Int (a + b)
  | _, _ => Float (as_float x + as_float y)
  end.

Definition sub (x y : number) : number :=
  match x, y with
  | Int a, Int b => Int (a - b)
  | _, _ => Float (as_float x - as_float y)
  end.

Definition mul (x y : number) : number :=
  match x, y with
  | Int a, Int b => Int (a * b)
  | _, _ => Float (as_float x * as_float y)
  end.

(** [a / b] on two ints: the correctly rounded quotient. *)
Definition int_truediv (a b : Z) : float :=
  let sgn_b := b <? 0 in
  match a with
  | Z0 => SF2Prim (S754_zero sgn_b)
  | Z.pos p =>
      SF2Prim (SFdiv prec emax (S754_finite false p 0)
                               (S754_finite sgn_b (Z.to_pos (Z.abs b)) 0))
  | Z.neg p =>
      SF2Prim (SFdiv prec emax (S754_finite true p 0)
                               (S754_finite sgn_b (Z.to_pos (Z.abs b)) 0))
  end.

(** [x / y]; [None] is ZeroDivisionError. *)
Definition truediv (x y : number) : option number :=
  match x, y with
  | Int a, Int b =>
      if b =? 0 then None else Some (Float (int_truediv a b))
  | _, _ =>
      if is_zero (as_float y) then None
      else Some (Float (as_float x / as_float y))
  end.

(** [sum(xs)]: the items added from left to right, starting from int 0.
    (CPython 3.12 and later add floats with a compensation term, which
    can change the last bit of a sum of three or more floats.) *)
Definition sum (xs : list number) : number :=
  fold_left add xs (Int 0).

(** Nearest integer to [a / d] for [d > 0], ties to even. *)
Definition round_half_even (a d : Z) : Z :=
  let q := a / d in
  let r := a mod d in
  match 2 * r ?= d with
  | Lt => q
  | Gt => q + 1
  | Eq => if Z.even q then q else q + 1
  end.

(** [round(x, 2)] on a float: the exact value of [x] is rounded to two
    decimals (ties to even), and the double nearest to that decimal is
    returned; infinities and NaN are returned as they are. *)
Definition float_round2 (x : float) : float :=
  match Prim2SF x with
  | S754_finite s m e =>
      let n := if 0 <=? e then Z.pos m * 100 * 2 ^ e
               else round_half_even (Z.pos m * 100) (2 ^ (- e)) in
      match n with
      | Z.pos p =>
          SF2Prim (SFdiv prec emax (S754_finite s p 0) (S754_finite false 100 0))
      | _ => SF2Prim (S754_zero s)
      end
  | _ => x
  end.

(** [round(x, 2)]: an int is returned unchanged. *)
Definition round2 (x : number) : number :=
  match x with
  | Int z => Int z
  | Float f => Float (float_round2 f)
  end.

(** [x >= 0], as pydantic's [ge=0] checks it (false on NaN). *)
Definition ge0 (x : float) : bool := (0 <=? x)%float.

End Py.

(** ** ObjectId

    A BSON ObjectId is 12 bytes, here the number they spell in big-endian
    order.  [ObjectId(s)] accepts a string of 24 hexadecimal digits of
    either case; [str(oid)] prints 24 lowercase digits. *)

Definition ObjectId := N.

Definition hex_digit (c : ascii) : option N :=
  let n := N_of_ascii c in
  if ((48 <=? n) && (n <=? 57))%N then Some (n - 48)%N
  else if ((97 <=? n) && (n <=? 102))%N then Some (n - 87)%N
  else if ((65 <=? n) && (n <=? 70))%N then Some (n - 55)%N
  else None.

Fixpoint fromhex (s : string) (acc : N) : option N :=
  match s with
  | EmptyString => Some acc
  | String c s' =>
      match hex_digit c with
      | Some d => fromhex s' (16 * acc + d)%N
      | None => None
      end
  end.

(** [ObjectId(s)]; [None] is bson's InvalidId. *)
Definition ObjectId_of_str (s : string) : option ObjectId :=
  if (String.length s =? 24)%nat then fromhex s 0%N else None.

Definition hex_char (d : N) : ascii :=
  if (d <? 10)%N then ascii_of_N (48 + d) else ascii_of_N (87 + d).

Fixpoint hexlify (digits : nat) (n : N) (acc : string) : string :=
  match digits with
  | O => acc
  | S k => hexlify k (n / 16)%N (String (hex_char (n mod 16)%N) acc)
  end.

(** [str(oid)]. *)
Definition str_of_ObjectId (oid : ObjectId) : string :=
  hexlify 24 oid EmptyString.

(** ** Outcomes of a request handler *)

(** Exceptions that no handler catches; FastAPI answers them with status 500. *)
Inductive exception :=
| InvalidId              (* bson.errors.InvalidId *)
| ValidationError        (* pydantic *)
| ZeroDivisionError
| TypeError              (* subscripting [None] *)
| DatabaseUnavailable    (* the store was never connected *)
| OperationFailure       (* the store rejected the query *)
| ResponseValidationError.

Inductive outcome (A : Type) :=
| Return (a : A)
| HTTPException (status_code : Z) (detail : string)
| Raise (e : exception).

Arguments Return {A} a.
Arguments HTTPException {A} status_code detail.
Arguments Raise {A} e.

Definition bind {A B} (m : outcome A) (k : A -> outcome B) : outcome B :=
  match m with
  | Return a => k a
  | HTTPException c d => HTTPException c d
  | Raise e => Raise e
  end.

Notation "x <- m ;; k" := (bind m (fun x => k))
  (at level 100, m at next level, right associativity).

(** An optional result whose absence raises [e]. *)
Definition or_raise {A} (e : exception) (o : option A) : outcome A :=
  match o with
  | Some a => Return a
  | None => Raise e
  end.

(** [[f(x) for x in xs]] where [f] may raise: the first failure wins. *)
Fixpoint for_each {A B} (f : A -> outcome B) (xs : list A) : outcome (list B) :=
  match xs with
  | [] => Return []
  | x :: xs' => y <- f x ;; ys <- for_each f xs' ;; Return (y :: ys)
  end.

(** ** schemas.py: the validated models *)

Module CartItem.
Record t := mk { product_id : string; quantity : Z }.
End CartItem.

Module Cart.
Record t := mk {
  user_id : option string;
  session_id : option string;
  items : list CartItem.t }.
End Cart.

Module Review.
Record t := mk {
  product_id : string;
  user_name : string;
  rating : Z;
  comment : option string }.
End Review.

Module Category.
Record t := mk {
  name : string; slug : string;
  description : option string; icon : option string }.
End Category.

Module ProductImage.
Record t := mk { url : string; alt : option string }.
End ProductImage.

Module Product.
Record t := mk {
  title : string;
  slug : string;
  description : string;
  price : float;
  category : string;
  stock : Z;
  fragility_rating : Z;
  handling_instructions : option string;
  assurance_badge : bool;
  images : list ProductImage.t;
  seo_keywords : option (list string) }.
End Product.

Module Address.
Record t := mk {
  full_name : string;
  line1 : string;
  line2 : option string;
  city : string;
  state : option string;
  postal_code : string;
  country : string;
  phone : option string }.
End Address.

Module PaymentMethod.
Inductive method_t := card | paypal | apple_pay | google_pay | bnpl.
Record t := mk {
  method : method_t;
  token : option string;
  last4 : option string }.
End PaymentMethod.

Module ShippingOption.
Record t := mk { insured : bool; premium_packaging : bool }.
End ShippingOption.

Module Order.
Inductive status_t := created | paid | packaging | shipped | delivered.
Record t := mk {
  user_id : option string;
  cart_id : option string;
  items : list CartItem.t;
  amount_subtotal : float;
  amount_shipping : float;
  amount_insurance : float;
  amount_total : float;
  shipping_address : Address.t;
  payment : PaymentMethod.t;
  shipping : ShippingOption.t;
  status : status_t;
  estimated_delivery : option string }.
End Order.

Module PackagingGuide.
Record t := mk {
  title : string; content_md : string; media : option (list string) }.
End PackagingGuide.

Module Notification.
Inductive kind_t := order_update | packaging | announcement | restock.
Record t := mk {
  user_id : string; kind : kind_t; title : string; body : string;
  read : bool }.
End Notification.

Module About.
Record t := mk {
  headline : string; story : string; years : Z; badges : list string;
  testimonials : option (list (string * string)) }.
End About.

(** ** Request bodies that are plain dicts *)

Inductive json :=
| JNull
| JBool (b : bool)
| JNumber (x : Py.number)
| JString (s : string)
| JList (l : list json)
| JDict (d : gmap string json).

(** A [str] field: pydantic accepts a string and nothing else JSON can hold. *)
Definition required_str (d : gmap string json) (k : string) : option string :=
  match d !! k with
  | Some (JString s) => Some s
  | _ => None
  end.

(** An [Optional[str] = None] field: absent, null or a string. *)
Definition optional_str (d : gmap string json) (k : string)
  : option (option string) :=
  match d !! k with
  | None | Some JNull => Some None
  | Some (JString s) => Some (Some s)
  | Some _ => None
  end.

(** [Address] validated from a dict; [None] is a ValidationError. *)
Definition validate_Address (d : gmap string json) : option Address.t :=
  full_name ← required_str d "full_name";
  line1 ← required_str d "line1";
  line2 ← optional_str d "line2";
  city ← required_str d "city";
  state ← optional_str d "state";
  postal_code ← required_str d "postal_code";
  country ← required_str d "country";
  phone ← optional_str d "phone";
  Some (Address.mk full_name line1 line2 city state postal_code country phone).

Definition validate_method (s : string) : option PaymentMethod.method_t :=
  if String.eqb s "card" then Some PaymentMethod.card
  else if String.eqb s "paypal" then Some PaymentMethod.paypal
  else if String.eqb s "apple_pay" then Some PaymentMethod.apple_pay
  else if String.eqb s "google_pay" then Some PaymentMethod.google_pay
  else if String.eqb s "bnpl" then Some PaymentMethod.bnpl
  else None.

(** [PaymentMethod] validated from a dict; [None] is a ValidationError. *)
Definition validate_PaymentMethod (d : gmap string json)
  : option PaymentMethod.t :=
  m ← required_str d "method";
  method ← validate_method m;
  token ← optional_str d "token";
  last4 ← optional_str d "last4";
  Some (PaymentMethod.mk method token last4).

(** ** Stored documents

    The collections are schemaless: a field the code reads with [.get] and a
    default may be absent from a stored document, and is optional here. *)

(** An entry of a cart's [items] array. *)
Module ItemDoc.
Record t := mk { product_id : string; quantity : option Z }.
End ItemDoc.

Module CartDoc.
Record t := mk {
  _id : ObjectId;
  user_id : option string;
  session_id : option string;
  items : option (list ItemDoc.t) }.
End CartDoc.

Module ProductDoc.
Record t := mk {
  _id : ObjectId;
  title : string;
  slug : string;
  description : string;
  price : float;
  category : string;
  stock : Z;
  fragility_rating : option Z;
  handling_instructions : option string;
  assurance_badge : bool;
  images : list ProductImage.t;
  seo_keywords : option (list string) }.
End ProductDoc.

(** A document of a collection the handlers only insert into or list: the
    dumped model under its [_id]. *)
Record stored (A : Type) := Stored { stored_id : ObjectId; body : A }.
Arguments Stored {A} stored_id body.
Arguments stored_id {A} s.
Arguments body {A} s.

(** [model_dump()] of a cart item. *)
Definition dump_item (i : CartItem.t) : ItemDoc.t :=
  ItemDoc.mk (CartItem.product_id i) (Some (CartItem.quantity i)).

(** [CartItem] validated from a stored entry: [quantity] is required and at least 1;
    [None] is a ValidationError. *)
Definition validate_CartItem (i : ItemDoc.t) : option CartItem.t :=
  match ItemDoc.quantity i with
  | Some q =>
      if 1 <=? q then Some (CartItem.mk (ItemDoc.product_id i) q) else None
  | None => None
  end.

(** ** The document store *)

Record store := Store {
  category : list (stored Category.t);
  product : list ProductDoc.t;
  review : list (stored Review.t);
  cart : list CartDoc.t;
  order : list (stored Order.t);
  packagingguide : list (stored PackagingGuide.t);
  about : list (stored About.t);
  notification : list (stored Notification.t) }.

(** [db]: [None] when the connection was never established. *)
Definition database := option store.

(** [db[name]]: a collection of the store, read and replaced as a whole. *)
Record collection (D : Type) := Collection {
  docs : store -> list D;
  with_docs : list D -> store -> store }.
Arguments docs {D} c st.
Arguments with_docs {D} c ds st.

Definition product_c : collection ProductDoc.t :=
  Collection _ product
    (fun ds st => Store (category st) ds (review st) (cart st) (order st)
                        (packagingguide st) (about st) (notification st)).

Definition review_c : collection (stored Review.t) :=
  Collection _ review
    (fun ds st => Store (category st) (product st) ds (cart st) (order st)
                        (packagingguide st) (about st) (notification st)).

Definition cart_c : collection CartDoc.t :=
  Collection _ cart
    (fun ds st => Store (category st) (product st) (review st) ds (order st)
                        (packagingguide st) (about st) (notification st)).

Definition order_c : collection (stored Order.t) :=
  Collection _ order
    (fun ds st => Store (category st) (product st) (review st) (cart st) ds
                        (packagingguide st) (about st) (notification st)).

(** ** Queries *)

(** A scalar value of a stored field. *)
Inductive bson :=
| BNull
| BBool (b : bool)
| BInt (z : Z)
| BDouble (f : float)
| BString (s : string)
| BObjectId (oid : ObjectId).

Definition bson_eqb (x y : bson) : bool :=
  match x, y with
  | BNull, BNull => true
  | BBool a, BBool b => Bool.eqb a b
  | BInt a, BInt b => a =? b
  | BDouble a, BDouble b => (a =? b)%float
  | BInt a, BDouble b | BDouble b, BInt a => (Py.float_of_int a =? b)%float
  | BString a, BString b => String.eqb a b
  | BObjectId a, BObjectId b => (a =? b)%N
  | _, _ => false
  end.

Class Identified (D : Type) := _id : D -> ObjectId.

(** The scalar fields of a document by name; [None] when the document has
    no such field. *)
Class Document (D : Type) `{Identified D} := field : string -> D -> option bson.

#[export] Instance ProductDoc_id : Identified ProductDoc.t := ProductDoc._id.
#[export] Instance CartDoc_id : Identified CartDoc.t := CartDoc._id.
#[export] Instance stored_id_of {A} : Identified (stored A) := stored_id.

#[export] Instance ProductDoc_fields : Document ProductDoc.t := fun k p =>
  if String.eqb k "_id" then Some (BObjectId (ProductDoc._id p))
  else if String.eqb k "title" then Some (BString (ProductDoc.title p))
  else if String.eqb k "slug" then Some (BString (ProductDoc.slug p))
  else if String.eqb k "description" then Some (BString (ProductDoc.description p))
  else if String.eqb k "price" then Some (BDouble (ProductDoc.price p))
  else if String.eqb k "category" then Some (BString (ProductDoc.category p))
  else if String.eqb k "stock" then Some (BInt (ProductDoc.stock p))
  else if String.eqb k "fragility_rating" then BInt <$> ProductDoc.fragility_rating p
  else if String.eqb k "handling_instructions"
       then BString <$> ProductDoc.handling_instructions p
  else if String.eqb k "assurance_badge" then Some (BBool (ProductDoc.assurance_badge p))
  else None.

#[export] Instance CartDoc_fields : Document CartDoc.t := fun k c =>
  if String.eqb k "_id" then Some (BObjectId (CartDoc._id c))
  else if String.eqb k "user_id" then BString <$> CartDoc.user_id c
  else if String.eqb k "session_id" then BString <$> CartDoc.session_id c
  else None.

(** A condition on one field: [v], [{"$in": vs}] or
    [{"$regex": pattern, "$options": options}]. *)
Inductive cond :=
| Eq_ (v : bson)
| In_ (vs : list bson)
| Regex (pattern options : string).

(** An entry of a filter dict: [name: cond], or ["$or": [...]] over dicts
    of field conditions. *)
Inductive clause :=
| Field (name : string) (c : cond)
| Or_ (alternatives : list (list (string * cond))).

(** A filter dict; its entries all have to hold. *)
Definition filter_dict := list clause.

(** ** Text *)

Definition lower (c : ascii) : ascii :=
  let n := N_of_ascii c in
  if ((65 <=? n) && (n <=? 90))%N then ascii_of_N (n + 32) else c.

Definition ieqb (a b : ascii) : bool := Ascii.eqb (lower a) (lower b).

(** [q] is a prefix of [s], letter case ignored. *)
Fixpoint iprefix (q s : string) : bool :=
  match q, s with
  | EmptyString, _ => true
  | String a q', String b s' => ieqb a b && iprefix q' s'
  | String _ _, EmptyString => false
  end.

(** [q] occurs in [s], letter case ignored. *)
Fixpoint icontains (q s : string) : bool :=
  iprefix q s ||
  match s with
  | EmptyString => false
  | String _ s' => icontains q s'
  end.

(** The characters with a special meaning in a regular expression. *)
Definition metachar (c : ascii) : bool :=
  existsb (Ascii.eqb c) (list_ascii_of_string "\^$.[]|()?*+{}").

Fixpoint literal (q : string) : bool :=
  match q with
  | EmptyString => true
  | String c q' => negb (metachar c) && literal q'
  end.

(** ** The request and response of checkout *)

Module CheckoutRequest.
Record t := mk {
  cart_id : string;
  shipping_address : gmap string json;
  payment : gmap string json;
  insured : bool;
  premium_packaging : bool }.
End CheckoutRequest.

Module CheckoutResponse.
Record t := mk {
  order_id : string;
  amount_total : Py.number;
  status : string }.
End CheckoutResponse.

(** ** The pricing of checkout, local by local *)

(** [{str(p["_id"]): p["price"] for p in products}] *)
Definition price_map (products : list ProductDoc.t) : gmap string Py.number :=
  foldl (fun m p =>
           <[str_of_ObjectId (ProductDoc._id p) := Py.Float (ProductDoc.price p)]> m)
        ∅ products.

(** [{str(p["_id"]): p.get("fragility_rating", 3) for p in products}] *)
Definition fragility_map (products : list ProductDoc.t) : gmap string Z :=
  foldl (fun m p =>
           <[str_of_ObjectId (ProductDoc._id p)
               := default 3 (ProductDoc.fragility_rating p)]> m)
        ∅ products.

(** [price_map.get(it["product_id"], 0) * it.get("quantity", 1)] *)
Definition line_price (price_map : gmap string Py.number) (it : ItemDoc.t)
  : Py.number :=
  Py.mul (default (Py.Int 0) (price_map !! ItemDoc.product_id it))
         (Py.Int (default 1 (ItemDoc.quantity it))).

(** [fragility_map.get(it["product_id"], 3)] *)
Definition line_fragility (fragility_map : gmap string Z) (it : ItemDoc.t) : Z :=
  default 3 (fragility_map !! ItemDoc.product_id it).

Definition subtotal (price_map : gmap string Py.number) (items : list ItemDoc.t)
  : Py.number :=
  Py.sum (line_price price_map <$> items).

(** [sum(...) / len(items)]; [None] is ZeroDivisionError. *)
Definition avg_fragility (fragility_map : gmap string Z) (items : list ItemDoc.t)
  : option Py.number :=
  Py.truediv (Py.sum ((fun it => Py.Int (line_fragility fragility_map it)) <$> items))
             (Py.Int (Z.of_nat (length items))).

Definition insurance (insured : bool) (subtotal avg_fragility : Py.number)
  : Py.number :=
  if insured
  then Py.round2
         (Py.mul subtotal
            (Py.add (Py.Float 0.02)
               (Py.mul (Py.Float 0.02) (Py.sub avg_fragility (Py.Int 1)))))
  else Py.Int 0.

Definition premium_packaging_fee (premium_packaging : bool) : Py.number :=
  if premium_packaging then Py.Float 14.0 else Py.Int 0.

Definition shipping (avg_fragility : Py.number) : Py.number :=
  Py.round2
    (Py.add (Py.Float 9.0) (Py.mul (Py.sub avg_fragility (Py.Int 1)) (Py.Float 2.5))).

Definition total (subtotal shipping insurance premium_packaging_fee : Py.number)
  : Py.number :=
  Py.round2
    (Py.add (Py.add (Py.add subtotal shipping) insurance) premium_packaging_fee).

(** [Order(items=[CartItem ...], amount_subtotal=..., ...)]: every entry is
    validated as a [CartItem], the two dicts as [Address] and
    [PaymentMethod], and the four amounts are floats that are at least 0;
    [None] is a ValidationError. *)
Definition make_Order (items : list ItemDoc.t)
    (subtotal shipping insurance total : Py.number) (req : CheckoutRequest.t)
  : option Order.t :=
  items ← mapM validate_CartItem items;
  shipping_address ← validate_Address (CheckoutRequest.shipping_address req);
  payment ← validate_PaymentMethod (CheckoutRequest.payment req);
  let amount_subtotal := Py.as_float subtotal in
  let amount_shipping := Py.as_float shipping in
  let amount_insurance := Py.as_float insurance in
  let amount_total := Py.as_float total in
  if Py.ge0 amount_subtotal && Py.ge0 amount_shipping
     && Py.ge0 amount_insurance && Py.ge0 amount_total
  then Some (Order.mk None None items amount_subtotal amount_shipping
               amount_insurance amount_total shipping_address payment
               (ShippingOption.mk (CheckoutRequest.insured req)
                                  (CheckoutRequest.premium_packaging req))
               Order.created None)
  else None.

(** ** The store's operations and database.py *)

Section Handlers.

(** The store's regular-expression engine: a pattern and its options
    compile to a test on strings, or are rejected. *)
Variable regex_compile : string -> string -> option (string -> bool).

Section Collection.
Context {D : Type} `{Document D}.

Definition compile_cond (c : cond) : option (option bson -> bool) :=
  match c with
  | Eq_ v => Some (fun o => bson_eqb (default BNull o) v)
  | In_ vs => Some (fun o => existsb (bson_eqb (default BNull o)) vs)
  | Regex pattern options =>
      m ← regex_compile pattern options;
      Some (fun o => match o with Some (BString s) => m s | _ => false end)
  end.

Definition compile_field (name : string) (c : cond) : option (D -> bool) :=
  t ← compile_cond c; Some (fun d => t (field name d)).

(** A dict of field conditions: every entry holds. *)
Fixpoint compile_fields (fs : list (string * cond)) : option (D -> bool) :=
  match fs with
  | [] => Some (fun _ => true)
  | (name, c) :: fs' =>
      t ← compile_field name c;
      r ← compile_fields fs';
      Some (fun d => t d && r d)
  end.

(** ["$or"]: some alternative holds. *)
Fixpoint compile_or (alts : list (list (string * cond))) : option (D -> bool) :=
  match alts with
  | [] => Some (fun _ => false)
  | a :: alts' =>
      t ← compile_fields a;
      r ← compile_or alts';
      Some (fun d => t d || r d)
  end.

Definition compile_clause (c : clause) : option (D -> bool) :=
  match c with
  | Field name c => compile_field name c
  | Or_ alts => compile_or alts
  end.

Fixpoint compile_filter (flt : filter_dict) : option (D -> bool) :=
  match flt with
  | [] => Some (fun _ => true)
  | c :: flt' =>
      t ← compile_clause c;
      r ← compile_filter flt';
      Some (fun d => t d && r d)
  end.

(** [collection.find(flt)]: the matching documents in stored order. *)
Definition find (ds : list D) (flt : filter_dict) : outcome (list D) :=
  t <- or_raise OperationFailure (compile_filter flt) ;;
  Return (List.filter t ds).

(** The first document that passes [t] is replaced by its update; the
    count of matched documents (0 or 1) comes with the result. *)
Fixpoint update_first (t : D -> bool) (upd : D -> D) (ds : list D)
  : list D * Z :=
  match ds with
  | [] => ([], 0)
  | d :: ds' =>
      if t d then (upd d :: ds', 1)
      else let '(r, n) := update_first t upd ds' in (d :: r, n)
  end.

(** [collection.update_one(flt, update)], with its [matched_count]. *)
Definition update_one (ds : list D) (flt : filter_dict) (upd : D -> D)
  : outcome (list D * Z) :=
  t <- or_raise OperationFailure (compile_filter flt) ;;
  Return (update_first t upd ds).

(** Modelled from the spec: database.py is not among the sources.
    [query(collection, filter, limit?)] gives the ordered sequence of
    matching records, and signals Database-Unavailable when the store
    was never connected. *)
Definition get_documents (c : collection D) (flt : filter_dict)
    (limit : option nat) (db : database) : outcome (list D) :=
  match db with
  | None => Raise DatabaseUnavailable
  | Some st =>
      r <- find (docs c st) flt ;;
      Return (match limit with Some n => take n r | None => r end)
  end.

End Collection.

(** An id no document of the collection has. *)
Definition fresh_id (ids : list ObjectId) : ObjectId :=
  N.succ (foldr N.max 0%N ids).

(** Modelled from the spec: database.py is not among the sources.
    [create(collection, record)] stores the record under a store-generated
    unique id and returns that id (as a string, like every id the API
    passes); it signals Database-Unavailable when the store was never
    connected. *)
Definition create_document {D} `{Identified D} (c : collection D)
    (record : ObjectId -> D) (db : database) : outcome string * database :=
  match db with
  | None => (Raise DatabaseUnavailable, db)
  | Some st =>
      let new_id := fresh_id (_id <$> docs c st) in
      (Return (str_of_ObjectId new_id),
       Some (with_docs c (docs c st ++ [record new_id]) st))
  end.

(** [db[name]] for a read: subscripting [None] is a TypeError. *)
Definition db_docs {D} (c : collection D) (db : database) : outcome (list D) :=
  match db with
  | None => Raise TypeError
  | Some st => Return (docs c st)
  end.

(** [db[name].update_one(flt, update)] on the connected store. *)
Definition db_update_one {D} `{Document D} (c : collection D)
    (flt : filter_dict) (upd : D -> D) (db : database)
  : outcome Z * database :=
  match db with
  | None => (Raise TypeError, db)
  | Some st =>
      match update_one (docs c st) flt upd with
      | Return (ds, matched_count) =>
          (Return matched_count, Some (with_docs c ds st))
      | HTTPException code detail => (HTTPException code detail, db)
      | Raise e => (Raise e, db)
      end
  end.

(** A step that only reads the store: when it fails the handler ends
    there, with the store as it was. *)
Definition reading {A B} (m : outcome A) (db : database)
    (k : A -> outcome B * database) : outcome B * database :=
  match m with
  | Return a => k a
  | HTTPException code detail => (HTTPException code detail, db)
  | Raise e => (Raise e, db)
  end.

(** A step that writes: the store it leaves is kept, also when it fails. *)
Definition writing {A B} (m : outcome A * database)
    (k : A -> database -> outcome B * database) : outcome B * database :=
  match m with
  | (Return a, db') => k a db'
  | (HTTPException code detail, db') => (HTTPException code detail, db')
  | (Raise e, db') => (Raise e, db')
  end.

(** ** main.py *)

Definition to_obj_id (id_str : string) : outcome ObjectId :=
  match ObjectId_of_str id_str with
  | Some oid => Return oid
  | None => HTTPException 400 "Invalid id"
  end.

Definition by_id (oid : ObjectId) : filter_dict :=
  [Field "_id" (Eq_ (BObjectId oid))].

(** [list_products(category, q)]: an absent or empty parameter adds no
    entry to the filter. *)
Definition list_products (category q : option string) (db : database)
  : outcome (list ProductDoc.t) :=
  let filter_q := [] in
  let filter_q :=
    match category with
    | Some (String _ _ as category) =>
        filter_q ++ [Field "category" (Eq_ (BString category))]
    | _ => filter_q
    end in
  let filter_q :=
    match q with
    | Some (String _ _ as q) =>
        filter_q ++ [Or_ [[("title", Regex q "i")];
                          [("description", Regex q "i")]]]
    | _ => filter_q
    end in
  get_documents product_c filter_q None db.

(** [response_model=List[Product]]: the route validates what the handler
    returned against the schema before it answers. *)
Definition validate_Product (p : ProductDoc.t) : option Product.t :=
  fragility_rating ← ProductDoc.fragility_rating p;
  if Py.ge0 (ProductDoc.price p) && (0 <=? ProductDoc.stock p)
     && (1 <=? fragility_rating) && (fragility_rating <=? 5)
  then Some (Product.mk (ProductDoc.title p) (ProductDoc.slug p)
               (ProductDoc.description p) (ProductDoc.price p)
               (ProductDoc.category p) (ProductDoc.stock p) fragility_rating
               (ProductDoc.handling_instructions p)
               (ProductDoc.assurance_badge p) (ProductDoc.images p)
               (ProductDoc.seo_keywords p))
  else None.

Definition GET_api_products (category q : option string) (db : database)
  : outcome (list Product.t) :=
  ds <- list_products category q db ;;
  or_raise ResponseValidationError (mapM validate_Product ds).

(** [add_review(review)]; the result is the [id] of the response. *)
Definition add_review (review : Review.t) (db : database)
  : outcome string * database :=
  reading
    (oid <- or_raise InvalidId (ObjectId_of_str (Review.product_id review)) ;;
     get_documents product_c (by_id oid) (Some 1%nat) db)
    db
    (fun found =>
       match found with
       | [] => (HTTPException 404 "Product not found", db)
       | _ :: _ => create_document review_c (fun oid => Stored oid review) db
       end).

Definition init_cart (cart : Cart.t) (db : database)
  : outcome string * database :=
  create_document cart_c
    (fun oid => CartDoc.mk oid (Cart.user_id cart) (Cart.session_id cart)
                  (Some (dump_item <$> Cart.items cart)))
    db.

Definition get_cart (cart_id : string) (db : database) : outcome CartDoc.t :=
  oid <- to_obj_id cart_id ;;
  docs <- get_documents cart_c (by_id oid) (Some 1%nat) db ;;
  match docs with
  | [] => HTTPException 404 "Cart not found"
  | doc :: _ => Return doc
  end.

(** [{"$set": {"items": items}}] *)
Definition set_items (items : list ItemDoc.t) (c : CartDoc.t) : CartDoc.t :=
  CartDoc.mk (CartDoc._id c) (CartDoc.user_id c) (CartDoc.session_id c)
    (Some items).

(** [update_cart(cart_id, body)] with [body.items]; the result [true] is
    the [ok] of the response. *)
Definition update_cart (cart_id : string) (items : list CartItem.t)
    (db : database) : outcome bool * database :=
  match db with
  | None => (HTTPException 500 "Database not available", db)
  | Some _ =>
      reading (to_obj_id cart_id) db (fun oid =>
      writing
        (db_update_one cart_c (by_id oid) (set_items (dump_item <$> items)) db)
        (fun matched_count db' =>
           if matched_count =? 0
           then (HTTPException 404 "Cart not found", db')
           else (Return true, db')))
  end.

(** [{"$inc": {"stock": n}}] *)
Definition inc_stock (n : Z) (p : ProductDoc.t) : ProductDoc.t :=
  ProductDoc.mk (ProductDoc._id p) (ProductDoc.title p) (ProductDoc.slug p)
    (ProductDoc.description p) (ProductDoc.price p) (ProductDoc.category p)
    (ProductDoc.stock p + n) (ProductDoc.fragility_rating p)
    (ProductDoc.handling_instructions p) (ProductDoc.assurance_badge p)
    (ProductDoc.images p) (ProductDoc.seo_keywords p).

(** The loop that ends [checkout]: one [update_one] per cart line. *)
Fixpoint decrement_stock (items : list ItemDoc.t) (db : database)
  : outcome unit * database :=
  match items with
  | [] => (Return (), db)
  | it :: items' =>
      reading (or_raise InvalidId (ObjectId_of_str (ItemDoc.product_id it))) db
        (fun oid =>
      writing
        (db_update_one product_c (by_id oid)
           (inc_stock (- default 1 (ItemDoc.quantity it))) db)
        (fun _ db' => decrement_stock items' db'))
  end.

(** The part of [checkout] before its first write: the cart lines, the
    total and the validated order. *)
Definition checkout_order (req : CheckoutRequest.t) (db : database)
  : outcome (list ItemDoc.t * Py.number * Order.t) :=
  oid <- to_obj_id (CheckoutRequest.cart_id req) ;;
  cart_docs <- get_documents cart_c (by_id oid) (Some 1%nat) db ;;
  match cart_docs with
  | [] => HTTPException 404 "Cart not found"
  | cart :: _ =>
      let items := default [] (CartDoc.items cart) in
      match items with
      | [] => HTTPException 400 "Cart is empty"
      | _ :: _ =>
          product_ids <-
            for_each (fun i => or_raise InvalidId
                                 (ObjectId_of_str (ItemDoc.product_id i)))
                     items ;;
          all_products <- db_docs product_c db ;;
          products <-
            find all_products [Field "_id" (In_ (BObjectId <$> product_ids))] ;;
          let price_map := price_map products in
          let fragility_map := fragility_map products in
          let subtotal := subtotal price_map items in
          avg_fragility <-
            or_raise ZeroDivisionError (avg_fragility fragility_map items) ;;
          let insurance :=
            insurance (CheckoutRequest.insured req) subtotal avg_fragility in
          let premium_packaging_fee :=
            premium_packaging_fee (CheckoutRequest.premium_packaging req) in
          let shipping := shipping avg_fragility in
          let total := total subtotal shipping insurance premium_packaging_fee in
          order <-
            or_raise ValidationError
              (make_Order items subtotal shipping insurance total req) ;;
          Return (items, total, order)
      end
  end.

Definition checkout (req : CheckoutRequest.t) (db : database)
  : outcome CheckoutResponse.t * database :=
  reading (checkout_order req db) db (fun '(items, total, order) =>
  writing (create_document order_c (fun oid => Stored oid order) db)
    (fun order_id db' =>
  writing (decrement_stock items db')
    (fun _ db'' =>
       (Return (CheckoutResponse.mk order_id total "created"), db'')))).

End Handlers.

(** ** main.py: the product page, product creation and notifications *)

#[export] Instance Review_fields : Document (stored Review.t) := fun k d =>
  if String.eqb k "_id" then Some (BObjectId (stored_id d))
  else if String.eqb k "product_id"
       then Some (BString (Review.product_id (body d)))
  else if String.eqb k "user_name" then Some (BString (Review.user_name (body d)))
  else if String.eqb k "rating" then Some (BInt (Review.rating (body d)))
  else if String.eqb k "comment" then BString <$> Review.comment (body d)
  else None.

#[export] Instance Notification_fields : Document (stored Notification.t) :=
  fun k d =>
  if String.eqb k "_id" then Some (BObjectId (stored_id d))
  else if String.eqb k "user_id"
       then Some (BString (Notification.user_id (body d)))
  else if String.eqb k "title" then Some (BString (Notification.title (body d)))
  else if String.eqb k "body" then Some (BString (Notification.body (body d)))
  else if String.eqb k "read" then Some (BBool (Notification.read (body d)))
  else if String.eqb k "kind"
       then Some (BString
                    match Notification.kind (body d) with
                    | Notification.order_update => "order_update"
                    | Notification.packaging => "packaging"
                    | Notification.announcement => "announcement"
                    | Notification.restock => "restock"
                    end)
  else None.

Definition notification_c : collection (stored Notification.t) :=
  Collection _ notification
    (fun ds st => Store (category st) (product st) (review st) (cart st)
                        (order st) (packagingguide st) (about st) ds).

(** What [get_product_by_slug] returns: the product document with its
    [reviews] entry. *)
Module ProductDetail.
Record t := mk { product : ProductDoc.t; reviews : list (stored Review.t) }.
End ProductDetail.

(** [model_dump()] of a product, stored under [oid]. *)
Definition dump_Product (p : Product.t) (oid : ObjectId) : ProductDoc.t :=
  ProductDoc.mk oid (Product.title p) (Product.slug p) (Product.description p)
    (Product.price p) (Product.category p) (Product.stock p)
    (Some (Product.fragility_rating p)) (Product.handling_instructions p)
    (Product.assurance_badge p) (Product.images p) (Product.seo_keywords p).

Section Catalog.
Variable regex_compile : string -> string -> option (string -> bool).

Definition create_product (product : Product.t) (db : database)
  : outcome string * database :=
  create_document product_c (dump_Product product) db.

Definition get_product_by_slug (slug : string) (db : database)
  : outcome ProductDetail.t :=
  docs <- get_documents regex_compile product_c
            [Field "slug" (Eq_ (BString slug))] (Some 1%nat) db ;;
  match docs with
  | [] => HTTPException 404 "Not found"
  | product :: _ =>
      reviews <-
        get_documents regex_compile review_c
          [Field "product_id"
             (Eq_ (BString (str_of_ObjectId (ProductDoc._id product))))]
          None db ;;
      Return (ProductDetail.mk product reviews)
  end.

Definition get_notifications (user_id : string) (db : database)
  : outcome (list (stored Notification.t)) :=
  get_documents regex_compile notification_c
    [Field "user_id" (Eq_ (BString user_id))] None db.

Definition create_notification (note : Notification.t) (db : database)
  : outcome string * database :=
  create_document notification_c (fun oid => Stored oid note) db.

End Catalog.

(** ** A reference engine for simple patterns

    It reads a pattern made of literal characters, [.] (any character but
    a newline) and backslash-escaped punctuation, and searches the subject
    for it; every other pattern is rejected.  The options are ["i"]
    (letter case ignored) or none. *)

Inductive atom :=
| Lit (c : ascii)
| AnyChar.

Definition alnum (c : ascii) : bool :=
  let n := N_of_ascii c in
  ((48 <=? n) && (n <=? 57) || (65 <=? n) && (n <=? 90)
   || (97 <=? n) && (n <=? 122))%N.

Fixpoint parse_atoms (pattern : string) : option (list atom) :=
  match pattern with
  | EmptyString => Some []
  | String c rest =>
      if Ascii.eqb c "\" then
        match rest with
        | String d rest' =>
            if alnum d then None else cons (Lit d) <$> parse_atoms rest'
        | EmptyString => None
        end
      else if Ascii.eqb c "." then cons AnyChar <$> parse_atoms rest
      else if metachar c then None
      else cons (Lit c) <$> parse_atoms rest
  end.

Definition atom_matches (caseless : bool) (a : atom) (c : ascii) : bool :=
  match a with
  | Lit l => if caseless then ieqb l c else Ascii.eqb l c
  | AnyChar => negb (Ascii.eqb c "010")
  end.

Fixpoint match_here (caseless : bool) (atoms : list atom) (s : string) : bool :=
  match atoms, s with
  | [], _ => true
  | a :: atoms', String c s' =>
      atom_matches caseless a c && match_here caseless atoms' s'
  | _ :: _, EmptyString => false
  end.

Fixpoint search (caseless : bool) (atoms : list atom) (s : string) : bool :=
  match_here caseless atoms s ||
  match s with
  | EmptyString => false
  | String _ s' => search caseless atoms s'
  end.

Definition pcre_lite (pattern options : string) : option (string -> bool) :=
  caseless ← (if String.eqb options "i" then Some true
              else if String.eqb options "" then Some false
              else None);
  atoms ← parse_atoms pattern;
  Some (search caseless atoms).

(** ** A small shop to run the handlers on *)

Module Sample.

Definition vase_id : ObjectId := 1%N.
Definition bowl_id : ObjectId := 2%N.
Definition cart_oid : ObjectId := 16%N.

Definition vase : ProductDoc.t :=
  ProductDoc.mk vase_id "Blue vase" "blue-vase" "Hand-blown Glass" 10.0
    "vases" 5 (Some 3) None true [] None.

Definition bowl : ProductDoc.t :=
  ProductDoc.mk bowl_id "Bowl" "bowl" "Oak, oiled" 24.5
    "kitchen" 1 (Some 1) None true [] None.

Definition address : gmap string json :=
  {[ "full_name" := JString "Ada L"; "line1" := JString "1 Main St";
     "city" := JString "Paris"; "postal_code" := JString "75001";
     "country" := JString "FR" ]}.

Definition payment : gmap string json := {[ "method" := JString "card" ]}.

Definition shop (items : option (list ItemDoc.t)) : database :=
  Some (Store [] [vase; bowl] []
          [CartDoc.mk cart_oid (Some "u1") None items] [] [] [] []).

Definition request (insured premium_packaging : bool) : CheckoutRequest.t :=
  CheckoutRequest.mk (str_of_ObjectId cart_oid) address payment
    insured premium_packaging.

End Sample.

(** ** Definitions the properties are stated with *)

(** The document has the id [oid]. *)
Definition has_id {D} `{Identified D} (oid : ObjectId) (d : D) : bool :=
  (_id d =? oid)%N.

(** The [_id] field of a document is its ObjectId. *)
Class DocumentLaws (D : Type) `{Document D} :=
  field_id : forall d : D, field "_id" d = Some (BObjectId (_id d)).

(** The document's id is one of [ids]. *)
Definition id_in {D} `{Identified D} (ids : list ObjectId) (d : D) : bool :=
  existsb (N.eqb (_id d)) ids.

(** [ObjectId(i["product_id"])] on a cart line. *)
Definition parse_line (i : ItemDoc.t) : outcome ObjectId :=
  or_raise InvalidId (ObjectId_of_str (ItemDoc.product_id i)).

(** The total of section 4.4 in the spec's words, over the validated cart
    lines: [price] and [fragility] give the price and the fragility the
    spec writes [price[product_id]] and [fragility[product_id]]. The mean
    is undefined ([None]) on no lines. *)
Definition spec_amount_total (price : string -> Py.number)
    (fragility : string -> Z) (lines : list CartItem.t)
    (insured premium_packaging : bool) : option Py.number :=
  let subtotal :=
    Py.sum ((fun l => Py.mul (price (CartItem.product_id l))
                             (Py.Int (CartItem.quantity l))) <$> lines) in
  avg_fragility ←
    Py.truediv
      (Py.sum ((fun l => Py.Int (fragility (CartItem.product_id l))) <$> lines))
      (Py.Int (Z.of_nat (length lines)));
  let shipping :=
    Py.round2 (Py.add (Py.Float 9.0)
                 (Py.mul (Py.sub avg_fragility (Py.Int 1)) (Py.Float 2.5))) in
  let insurance :=
    if insured
    then Py.round2
           (Py.mul subtotal
              (Py.add (Py.Float 0.02)
                 (Py.mul (Py.Float 0.02) (Py.sub avg_fragility (Py.Int 1)))))
    else Py.Int 0 in
  let premium_packaging_fee :=
    if premium_packaging then Py.Float 14.0 else Py.Int 0 in
  Some (Py.round2
          (Py.add (Py.add (Py.add subtotal shipping) insurance)
                  premium_packaging_fee)).

(** [price[product_id]] and [fragility[product_id]] over the products the
    batched lookup returned, with their defaults. *)
Definition price_of (products : list ProductDoc.t) (product_id : string)
  : Py.number :=
  default (Py.Int 0) (price_map products !! product_id).

Definition fragility_of (products : list ProductDoc.t) (product_id : string) : Z :=
  default 3 (fragility_map products !! product_id).

(** The sum of a list of integers. *)
Definition Zsum (zs : list Z) : Z := foldr Z.add 0 zs.

(** The stock loop in the spec's words: for each cart line in turn, the
    first product with the line's id has its stock decreased by the line's
    quantity. *)
Fixpoint stock_loop (lines : list (ObjectId * Z)) (ps : list ProductDoc.t)
  : list ProductDoc.t :=
  match lines with
  | [] => ps
  | (oid, q) :: lines' =>
      stock_loop lines' (fst (update_first (has_id oid) (inc_stock (- q)) ps))
  end.

(** The stored stock of the product with id [oid], if there is one. *)
Definition stock_of (oid : ObjectId) (ps : list ProductDoc.t) : option Z :=
  ProductDoc.stock <$> head (List.filter (has_id oid) ps).

(** The quantity the lines order of product [oid], all lines together. *)
Definition ordered (oid : ObjectId) (lines : list (ObjectId * Z)) : Z :=
  Zsum (snd <$> List.filter (fun l => (fst l =? oid)%N) lines).

(** A cart line as the loop reads it: the parsed id and the quantity, 1
    when the entry has none. *)
Definition loop_line (it : ItemDoc.t) : option (ObjectId * Z) :=
  oid ← ObjectId_of_str (ItemDoc.product_id it);
  Some (oid, default 1 (ItemDoc.quantity it)).

(** A cart line of the order as the stock loop reads it. *)
Definition order_line (l : CartItem.t) : option (ObjectId * Z) :=
  oid ← ObjectId_of_str (CartItem.product_id l);
  Some (oid, CartItem.quantity l).

(** The store after a checkout that created [order] and ran the stock loop
    over [lines]. *)
Definition after_checkout (placed : Order.t) (lines : list (ObjectId * Z))
    (st : store) : store :=
  with_docs product_c (stock_loop lines (product st))
    (with_docs order_c
       (order st ++ [Stored (fresh_id (stored_id <$> order st)) placed]) st).

Definition set_stock (n : Z) (p : ProductDoc.t) : ProductDoc.t :=
  inc_stock (n - ProductDoc.stock p) p.

(** The store with other stock levels: product [p] holds [level p]. *)
Definition restock (level : ProductDoc.t -> Z) (st : store) : store :=
  with_docs product_c ((fun p => set_stock (level p) p) <$> product st) st.

Definition lower_string (s : string) : string :=
  string_of_list_ascii (lower <$> list_ascii_of_string s).

(** [q] is a substring of [s], letter case ignored: [s] is some text, then
    a text that is [q] up to letter case, then some text. *)
Definition isubstring (q s : string) : Prop :=
  exists pre mid post : string,
    s = String.append pre (String.append mid post)
    /\ lower_string mid = lower_string q.

(** The products the spec asks of a search for [q], within [category] when
    one is given (an empty one counts as not given). *)
Definition wanted (category : option string) (q : string) (p : ProductDoc.t)
  : bool :=
  match category with
  | Some (String _ _ as c) => String.eqb (ProductDoc.category p) c
  | _ => true
  end
  && (icontains q (ProductDoc.title p) || icontains q (ProductDoc.description p)).

(** What the search needs of the store's engine: a pattern without
    metacharacters, compiled with option ["i"], tests for the pattern as a
    substring, letter case ignored. *)
Definition literal_engine
    (regex_compile : string -> string -> option (string -> bool)) : Prop :=
  forall q : string,
    literal q = true ->
    exists m : string -> bool,
      regex_compile q "i" = Some m /\ forall s, m s = icontains q s.

(** The string has one of the letters A to F in upper case. *)
Definition has_upper_hex (s : string) : bool :=
  existsb (fun c => let n := N_of_ascii c in ((65 <=? n) && (n <=? 70))%N)
          (list_ascii_of_string s).

(** [p'] is the product document [p] with another stock level. *)
Definition same_but_stock (p p' : ProductDoc.t) : Prop :=
  p' = inc_stock (ProductDoc.stock p' - ProductDoc.stock p) p.

(** The product has the slug. *)
Definition has_slug (slug : string) (p : ProductDoc.t) : bool :=
  String.eqb (ProductDoc.slug p) slug.

(** The review names the product id string [product_id]. *)
Definition review_of (product_id : string) (d : stored Review.t) : bool :=
  String.eqb (Review.product_id (body d)) product_id.

(** The notification is addressed to [user_id]. *)
Definition addressed_to (user_id : string) (d : stored Notification.t) : bool :=
  String.eqb (Notification.user_id (body d)) user_id.

(** The product is in the category, when one is given and not empty. *)
Definition in_category (category : option string) (p : ProductDoc.t) : bool :=
  match category with
  | Some (String _ _ as c) => String.eqb (ProductDoc.category p) c
  | _ => true
  end.

(** The constraints of the Product schema on price, stock and fragility. *)
Definition valid_Product (p : Product.t) : bool :=
  Py.ge0 (Product.price p) && (0 <=? Product.stock p)
  && (1 <=? Product.fragility_rating p) && (Product.fragility_rating p <=? 5).

(** The keys the Address schema requires. *)
Definition Address_required : list string :=
  ["full_name"; "line1"; "city"; "postal_code"; "country"]%string.

(** * Properties *)

Example ObjectId_roundtrip :
  str_of_ObjectId <$> ObjectId_of_str "64B7F1A2C3D4E5F601234567"
  = Some "64b7f1a2c3d4e5f601234567"%string.
Proof. reflexivity. Qed.

Example round2_ties :
  Py.float_round2 0.125 = 0.12%float /\ Py.float_round2 2.675 = 2.67%float.
Proof. split; reflexivity. Qed.

(** ** Queries by [_id] *)

#[export] Instance ProductDoc_laws : DocumentLaws ProductDoc.t.
Proof. intros d. reflexivity. Qed.

#[export] Instance CartDoc_laws : DocumentLaws CartDoc.t.
Proof. intros d. reflexivity. Qed.

Lemma filter_ext_eq {A} (f g : A -> bool) (l : list A) :
  (forall a, f a = g a) -> List.filter f l = List.filter g l.
Proof.
  intros Hfg. induction l as [|a l IH]; simpl; [reflexivity|].
  rewrite Hfg, IH. reflexivity.
Qed.

Section ById.
  Variable regex_compile : string -> string -> option (string -> bool).
  Context {D : Type} `{DocumentLaws D}.

Lemma find_by_id (ds : list D) (oid : ObjectId) :
    find regex_compile ds (by_id oid) = Return (List.filter (has_id oid) ds).
  Proof.
    unfold find, by_id. simpl. f_equal. apply filter_ext_eq. intros d.
    unfold compile_field; simpl. rewrite field_id. simpl.
    unfold has_id. rewrite andb_true_r. reflexivity.
  Qed.

Lemma update_first_none (t : D -> bool) (upd : D -> D) (ds : list D) :
    List.filter t ds = [] -> update_first t upd ds = (ds, 0).
  Proof.
    induction ds as [|d ds IH]; simpl; [reflexivity|].
    destruct (t d); [discriminate|]. intros Hf. rewrite (IH Hf). reflexivity.
  Qed.

Lemma update_one_by_id (ds : list D) (oid : ObjectId) (upd : D -> D) :
    update_one regex_compile ds (by_id oid) upd
    = Return (update_first (has_id oid) upd ds).
  Proof.
    unfold update_one, by_id. simpl. f_equal.
    assert (Hext : forall d : D,
               (bson_eqb (default BNull (field "_id" d)) (BObjectId oid) && true)
               = has_id oid d).
    { intros d. rewrite field_id. simpl. unfold has_id.
      rewrite andb_true_r. reflexivity. }
    unfold compile_field; simpl.
    induction ds as [|d ds IH]; simpl; [reflexivity|].
    rewrite Hext. destruct (has_id oid d); [reflexivity|].
    rewrite IH. reflexivity.
  Qed.

End ById.

(** ** Checkout: the guards before pricing *)

Section CheckoutGuards.
  Variable regex_compile : string -> string -> option (string -> bool).

Lemma bind_Return {A B} (m : outcome A) (k : A -> outcome B) (b : B) :
    bind m k = Return b -> exists a, m = Return a /\ k a = Return b.
  Proof. destruct m; simpl; intros Hb; try discriminate. eauto. Qed.

  (** A cart id resolves when [get_cart] returns the cart: the id is well
      formed and the query by [_id] has the cart first. *)
Lemma get_cart_Return (cart_id : string) (db : database) (cart : CartDoc.t) :
    get_cart regex_compile cart_id db = Return cart ->
    exists oid rest,
      to_obj_id cart_id = Return oid /\
      get_documents regex_compile cart_c (by_id oid) (Some 1%nat) db
      = Return (cart :: rest).
  Proof.
    unfold get_cart. intros Hg.
    apply bind_Return in Hg as (oid & Hoid & Hg).
    apply bind_Return in Hg as (docs & Hdocs & Hg).
    destruct docs as [|doc rest]; [discriminate|].
    injection Hg as ->. eauto.
  Qed.


  (** C4: a checkout request whose [cart_id] resolves to an existing cart
      with an empty item list fails with status 400 and detail
      "Cart is empty", and the store is unchanged: no order is persisted and
      no stock is modified. *)
Theorem checkout_empty_cart (req : CheckoutRequest.t) (db : database)
      (cart : CartDoc.t) :
    get_cart regex_compile (CheckoutRequest.cart_id req) db = Return cart ->
    default [] (CartDoc.items cart) = [] ->
    checkout regex_compile req db = (HTTPException 400 "Cart is empty", db).
  Proof.
    intros Hcart Hempty.
    apply get_cart_Return in Hcart as (oid & rest & Hoid & Hdocs).
    unfold checkout, checkout_order.
    rewrite Hoid; simpl. rewrite Hdocs; simpl. rewrite Hempty. reflexivity.
  Qed.

End CheckoutGuards.


Lemma checkout_empty_cart_witness :
  checkout pcre_lite (Sample.request true false) (Sample.shop (Some []))
  = (HTTPException 400 "Cart is empty", Sample.shop (Some [])).
Proof.
  apply (checkout_empty_cart pcre_lite (Sample.request true false)
           (Sample.shop (Some []))
           (CartDoc.mk Sample.cart_oid (Some "u1") None (Some [])));
    reflexivity.
Defined.

(** ** Checkout: what a successful run went through *)

Section CheckoutRuns.
  Variable regex_compile : string -> string -> option (string -> bool).

Lemma find_id_in (ds : list ProductDoc.t) (ids : list ObjectId) :
    find regex_compile ds [Field "_id" (In_ (BObjectId <$> ids))]
    = Return (List.filter (id_in ids) ds).
  Proof.
    unfold find. simpl. f_equal. apply filter_ext_eq. intros d.
    unfold compile_field; simpl. rewrite andb_true_r. unfold id_in.
    change (_id d) with (ProductDoc._id d).
    induction ids as [|o ids IH]; [reflexivity|].
    rewrite fmap_cons. cbn [existsb]. rewrite IH. reflexivity.
  Qed.

  (** The run of [checkout_order] that returns, step by step. *)
Lemma checkout_order_Return (req : CheckoutRequest.t) (db : database)
      (items : list ItemDoc.t) (amount : Py.number) (order : Order.t) :
    checkout_order regex_compile req db = Return (items, amount, order) ->
    exists oid cart rest ids st avg,
      to_obj_id (CheckoutRequest.cart_id req) = Return oid /\
      get_documents regex_compile cart_c (by_id oid) (Some 1%nat) db
      = Return (cart :: rest) /\
      default [] (CartDoc.items cart) = items /\
      items <> [] /\
      for_each parse_line items = Return ids /\
      db = Some st /\
      let products := List.filter (id_in ids) (product st) in
      avg_fragility (fragility_map products) items = Some avg /\
      let sub := subtotal (price_map products) items in
      amount = total sub (shipping avg)
                 (insurance (CheckoutRequest.insured req) sub avg)
                 (premium_packaging_fee (CheckoutRequest.premium_packaging req)) /\
      make_Order items sub (shipping avg)
        (insurance (CheckoutRequest.insured req) sub avg) amount req
      = Some order.
  Proof.
    unfold checkout_order. intros Hrun.
    apply bind_Return in Hrun as (oid & Hoid & Hrun).
    apply bind_Return in Hrun as (cart_docs & Hdocs & Hrun).
    destruct cart_docs as [|cart rest]; [discriminate|].
    destruct (default [] (CartDoc.items cart)) as [|it its] eqn:Hitems;
      [discriminate|].
    apply bind_Return in Hrun as (ids & Hids & Hrun).
    apply bind_Return in Hrun as (all_products & Hall & Hrun).
    destruct db as [st|]; [|discriminate].
    injection Hall as <-.
    rewrite find_id_in in Hrun. simpl in Hrun.
    apply bind_Return in Hrun as (avg & Havg & Hrun).
    apply bind_Return in Hrun as (order' & Horder & Hrun).
    injection Hrun as <- <- <-.
    destruct (avg_fragility _ _) as [avg'|] eqn:Havg'; [|discriminate].
    injection Havg as ->.
    destruct (make_Order _ _ _ _ _ _) as [o|] eqn:Ho; [|discriminate].
    injection Horder as ->.
    exists oid, cart, rest, ids, st, avg.
    repeat split; try assumption; try reflexivity. discriminate.
  Qed.

Lemma reading_Return {A B} (m : outcome A) (db : database)
      (k : A -> outcome B * database) (b : B) (db' : database) :
    reading m db k = (Return b, db') ->
    exists a, m = Return a /\ k a = (Return b, db').
  Proof. destruct m; simpl; intros Hr; try discriminate. eauto. Qed.

Lemma writing_Return {A B} (m : outcome A * database)
      (k : A -> database -> outcome B * database) (b : B) (db' : database) :
    writing m k = (Return b, db') ->
    exists a db1, m = (Return a, db1) /\ k a db1 = (Return b, db').
  Proof.
    destruct m as [[a|c d|e] db1]; simpl; intros Hw; try discriminate. eauto.
  Qed.

  (** The run of [checkout] that returns: the order is created, then the
      stock loop runs over the cart lines. *)
Lemma checkout_Return (req : CheckoutRequest.t) (db : database)
      (resp : CheckoutResponse.t) (db' : database) :
    checkout regex_compile req db = (Return resp, db') ->
    exists items order order_id db1,
      checkout_order regex_compile req db
      = Return (items, CheckoutResponse.amount_total resp, order) /\
      create_document order_c (fun oid => Stored oid order) db
      = (Return order_id, db1) /\
      decrement_stock regex_compile items db1 = (Return (), db') /\
      resp = CheckoutResponse.mk order_id (CheckoutResponse.amount_total resp)
               "created".
  Proof.
    unfold checkout. intros Hrun.
    apply reading_Return in Hrun as ([[items amount] order] & Hord & Hrun).
    apply writing_Return in Hrun as (order_id & db1 & Hcreate & Hrun).
    apply writing_Return in Hrun as ([] & db2 & Hdec & Hrun).
    injection Hrun as <- <-. simpl.
    exists items, order, order_id, db1. repeat split; assumption.
  Qed.

End CheckoutRuns.

(** ** Checkout: the amount charged *)

Lemma validate_CartItem_dump (i : ItemDoc.t) (l : CartItem.t) :
  validate_CartItem i = Some l -> i = dump_item l /\ 1 <= CartItem.quantity l.
Proof.
  unfold validate_CartItem. destruct i as [pid [q|]]; simpl; [|discriminate].
  destruct (1 <=? q) eqn:Hq; [|discriminate].
  intros [= <-]. split; [reflexivity|]. simpl. lia.
Qed.

Lemma mapM_validate_dump (items : list ItemDoc.t) (lines : list CartItem.t) :
  mapM validate_CartItem items = Some lines -> items = dump_item <$> lines.
Proof.
  revert lines. induction items as [|i items IH]; intros lines Hm.
  - injection Hm as <-. reflexivity.
  - simpl in Hm.
    destruct (validate_CartItem i) as [l|] eqn:Hi; [|discriminate].
    destruct (mapM validate_CartItem items) as [ls|] eqn:Hls; [|discriminate].
    injection Hm as <-.
    apply validate_CartItem_dump in Hi as [-> _].
    rewrite (IH ls eq_refl). reflexivity.
Qed.

Lemma make_Order_lines items sub ship ins amount req order :
  make_Order items sub ship ins amount req = Some order ->
  exists lines, mapM validate_CartItem items = Some lines
                /\ Order.items order = lines.
Proof.
  unfold make_Order. intros Hm.
  destruct (mapM validate_CartItem items) as [lines|]; [|discriminate].
  simpl in Hm.
  destruct (validate_Address _) as [a|]; [|discriminate]. simpl in Hm.
  destruct (validate_PaymentMethod _) as [p|]; [|discriminate]. simpl in Hm.
  destruct (_ && _); [|discriminate].
  injection Hm as <-. exists lines. split; reflexivity.
Qed.

Lemma for_each_parse_dump (lines : list CartItem.t) (ids : list ObjectId) :
  for_each parse_line (dump_item <$> lines) = Return ids ->
  mapM (fun l => ObjectId_of_str (CartItem.product_id l)) lines = Some ids.
Proof.
  revert ids. induction lines as [|l lines IH]; intros ids Hf.
  - injection Hf as <-. reflexivity.
  - rewrite fmap_cons in Hf. cbn [for_each] in Hf.
    apply bind_Return in Hf as (o & Ho & Hf).
    apply bind_Return in Hf as (os & Hos & Hf).
    injection Hf as <-.
    unfold parse_line in Ho. simpl in Ho.
    cbn [mapM]. 
    destruct (ObjectId_of_str (CartItem.product_id l)) as [o'|];
      [|discriminate].
    injection Ho as ->. rewrite (IH os Hos). reflexivity.
Qed.

Lemma subtotal_dump (pm : gmap string Py.number) (lines : list CartItem.t) :
  subtotal pm (dump_item <$> lines)
  = Py.sum ((fun l => Py.mul (default (Py.Int 0) (pm !! CartItem.product_id l))
                             (Py.Int (CartItem.quantity l))) <$> lines).
Proof. unfold subtotal. rewrite <- list_fmap_compose. reflexivity. Qed.

Lemma avg_fragility_dump (fm : gmap string Z) (lines : list CartItem.t) :
  avg_fragility fm (dump_item <$> lines)
  = Py.truediv
      (Py.sum ((fun l => Py.Int (default 3 (fm !! CartItem.product_id l)))
               <$> lines))
      (Py.Int (Z.of_nat (length lines))).
Proof.
  unfold avg_fragility. rewrite <- list_fmap_compose, length_fmap. reflexivity.
Qed.

Section CheckoutAmount.
Variable regex_compile : string -> string -> option (string -> bool).

(** C1: for a checkout request whose [cart_id] resolves to an existing cart
    with a non-empty item list, the returned [amount_total] is
    round(subtotal + shipping + insurance + premium_packaging_fee, 2) with
    the subtotal, shipping, insurance and fee of the spec's formulas
    ([spec_amount_total]), prices and fragilities being read from the
    products of the store whose ids the cart lines name. *)
Theorem checkout_amount_total (req : CheckoutRequest.t) (db : database)
    (cart : CartDoc.t) (resp : CheckoutResponse.t) (db' : database) :
  get_cart regex_compile (CheckoutRequest.cart_id req) db = Return cart ->
  default [] (CartDoc.items cart) <> [] ->
  checkout regex_compile req db = (Return resp, db') ->
  exists (lines : list CartItem.t) (ids : list ObjectId) (st : store),
    CartDoc.items cart = Some (dump_item <$> lines) /\
    mapM (fun l => ObjectId_of_str (CartItem.product_id l)) lines = Some ids /\
    db = Some st /\
    let products := List.filter (id_in ids) (product st) in
    spec_amount_total (price_of products) (fragility_of products) lines
      (CheckoutRequest.insured req) (CheckoutRequest.premium_packaging req)
    = Some (CheckoutResponse.amount_total resp).
Proof.
  intros Hcart Hne Hrun.
  apply checkout_Return in Hrun as (items & order & order_id & db1 & Hord & _).
  apply checkout_order_Return in Hord
    as (oid & cart' & rest & ids & st & avg & Hoid & Hdocs & Hitems & _
        & Hids & -> & Havg & Hamount & Horder).
  apply get_cart_Return in Hcart as (oid0 & rest0 & Hoid0 & Hdocs0).
  rewrite Hoid in Hoid0. injection Hoid0 as <-.
  rewrite Hdocs in Hdocs0. injection Hdocs0 as <- <-.
  apply make_Order_lines in Horder as (lines & Hlines & _).
  apply mapM_validate_dump in Hlines. subst items.
  rewrite Hlines in Hids, Havg, Hamount.
  exists lines, ids, st. repeat split.
  - destruct (CartDoc.items cart') as [its|]; simpl in *; [congruence|].
    contradiction.
  - apply for_each_parse_dump. exact Hids.
  - simpl. unfold spec_amount_total, price_of, fragility_of.
    rewrite avg_fragility_dump in Havg. rewrite Havg. simpl.
    rewrite Hamount, subtotal_dump. reflexivity.
Qed.

End CheckoutAmount.

Lemma checkout_amount_total_witness :
  exists (lines : list CartItem.t) (ids : list ObjectId) (st : store),
    Some [ItemDoc.mk "000000000000000000000001" (Some 2)]
    = Some (dump_item <$> lines) /\
    mapM (fun l => ObjectId_of_str (CartItem.product_id l)) lines = Some ids /\
    Sample.shop (Some [ItemDoc.mk "000000000000000000000001" (Some 2)])
    = Some st /\
    spec_amount_total (price_of (List.filter (id_in ids) (product st)))
      (fragility_of (List.filter (id_in ids) (product st))) lines true false
    = Some (Py.Float 35.2).
Proof.
  exact (checkout_amount_total pcre_lite (Sample.request true false)
           (Sample.shop (Some [ItemDoc.mk "000000000000000000000001" (Some 2)]))
           (CartDoc.mk Sample.cart_oid (Some "u1") None
              (Some [ItemDoc.mk "000000000000000000000001" (Some 2)]))
           (CheckoutResponse.mk "000000000000000000000001" (Py.Float 35.2)
              "created")
           (snd (checkout pcre_lite (Sample.request true false)
                   (Sample.shop
                      (Some [ItemDoc.mk "000000000000000000000001" (Some 2)]))))
           eq_refl ltac:(discriminate) ltac:(vm_compute; reflexivity)).
Defined.

(** ** Checkout: the fragility mean *)

Lemma fold_add_ints (zs : list Z) (a : Z) :
  fold_left Py.add (Py.Int <$> zs) (Py.Int a) = Py.Int (a + Zsum zs).
Proof.
  revert a. induction zs as [|z zs IH]; intros a; simpl.
  - f_equal. lia.
  - rewrite IH. f_equal. unfold Zsum. simpl. lia.
Qed.

Lemma sum_ints (zs : list Z) : Py.sum (Py.Int <$> zs) = Py.Int (Zsum zs).
Proof. unfold Py.sum. rewrite fold_add_ints. reflexivity. Qed.

Lemma avg_fragility_mean (fm : gmap string Z) (items : list ItemDoc.t) :
  avg_fragility fm items
  = Py.truediv (Py.Int (Zsum (line_fragility fm <$> items)))
               (Py.Int (Z.of_nat (length items))).
Proof.
  unfold avg_fragility.
  rewrite (list_fmap_compose (line_fragility fm) Py.Int), sum_ints.
  reflexivity.
Qed.

(** C2: in checkout, [avg_fragility] is the plain arithmetic mean of the
    per-line fragility values: the (exact, integer) sum over the cart lines
    of [fragility[product_id]], divided by the number of lines.  It does not
    weigh a line by its quantity: two carts that name the same products line
    by line have the same mean whatever their quantities.  On a non-empty
    cart the division is defined. *)
Theorem avg_fragility_unweighted (fm : gmap string Z) (items : list ItemDoc.t) :
  avg_fragility fm items
  = Py.truediv (Py.Int (Zsum (line_fragility fm <$> items)))
               (Py.Int (Z.of_nat (length items)))
  /\ (forall items' : list ItemDoc.t,
        ItemDoc.product_id <$> items' = ItemDoc.product_id <$> items ->
        avg_fragility fm items' = avg_fragility fm items)
  /\ (items <> [] ->
      avg_fragility fm items
      = Some (Py.Float (Py.int_truediv (Zsum (line_fragility fm <$> items))
                                       (Z.of_nat (length items))))).
Proof.
  split; [apply avg_fragility_mean|]. split.
  - intros items' Hsame. rewrite !avg_fragility_mean.
    assert (Hfrag : line_fragility fm <$> items' = line_fragility fm <$> items).
    { change (line_fragility fm)
        with ((fun pid => default 3 (fm !! pid)) ∘ ItemDoc.product_id).
      rewrite !list_fmap_compose, Hsame. reflexivity. }
    assert (Hlen : length items' = length items).
    { rewrite <- (length_fmap ItemDoc.product_id items'), Hsame.
      apply length_fmap. }
    rewrite Hfrag, Hlen. reflexivity.
  - intros Hne. rewrite avg_fragility_mean. unfold Py.truediv.
    destruct items as [|i items]; [contradiction|].
    simpl length. destruct (Z.of_nat (S (length items)) =? 0) eqn:Hz.
    + apply Z.eqb_eq in Hz. lia.
    + reflexivity.
Qed.

(** A line of quantity 100 counts once: fragilities 3 and 1 average to 2. *)
Lemma avg_fragility_unweighted_witness :
  avg_fragility (fragility_map [Sample.vase; Sample.bowl])
    [ItemDoc.mk "000000000000000000000001" (Some 100);
     ItemDoc.mk "000000000000000000000002" (Some 1)]
  = Some (Py.Float 2).
Proof.
  exact (proj2 (proj2 (avg_fragility_unweighted
                         (fragility_map [Sample.vase; Sample.bowl])
                         [ItemDoc.mk "000000000000000000000001" (Some 100);
                          ItemDoc.mk "000000000000000000000002" (Some 1)]))
               ltac:(discriminate)).
Defined.

Lemma mapM_cons_Some {A B} (f : A -> option B) (x : A) (xs : list A)
    (ys : list B) :
  mapM f (x :: xs) = Some ys ->
  exists y ys', f x = Some y /\ mapM f xs = Some ys' /\ ys = y :: ys'.
Proof.
  cbn [mapM]. destruct (f x) as [y|]; simpl; [|discriminate].
  destruct (mapM f xs) as [ys'|]; simpl; [|discriminate].
  intros [= <-]. eauto.
Qed.

(** ** Checkout: the stock loop *)

Lemma stock_of_update_first (oid o : ObjectId) (n : Z) (ps : list ProductDoc.t) :
  stock_of oid (fst (update_first (has_id o) (inc_stock n) ps))
  = if (o =? oid)%N then Z.add n <$> stock_of oid ps else stock_of oid ps.
Proof.
  unfold stock_of.
  induction ps as [|p ps IH]; simpl.
  - destruct (o =? oid)%N; reflexivity.
  - destruct (has_id o p) eqn:Ho; simpl.
    + unfold has_id in *. change (_id (inc_stock n p)) with (_id p).
      apply N.eqb_eq in Ho. rewrite Ho.
      destruct (o =? oid)%N eqn:Hoo; simpl; [|reflexivity].
      f_equal. lia.
    + destruct (update_first (has_id o) (inc_stock n) ps) as [r k] eqn:Hu.
      simpl in *. destruct (has_id oid p) eqn:Hp; simpl.
      * unfold has_id in *. apply N.eqb_eq in Hp.
        destruct (o =? oid)%N eqn:Hoo; [|reflexivity].
        apply N.eqb_eq in Hoo. subst o. rewrite Hp, N.eqb_refl in Ho.
        discriminate.
      * exact IH.
Qed.

Lemma ordered_cons (oid o : ObjectId) (q : Z) (lines : list (ObjectId * Z)) :
  ordered oid ((o, q) :: lines)
  = (if (o =? oid)%N then q else 0) + ordered oid lines.
Proof. unfold ordered. simpl. destruct (o =? oid)%N; reflexivity. Qed.

Lemma stock_of_stock_loop (oid : ObjectId) (lines : list (ObjectId * Z))
    (ps : list ProductDoc.t) :
  stock_of oid (stock_loop lines ps)
  = (fun s => s - ordered oid lines) <$> stock_of oid ps.
Proof.
  revert ps. induction lines as [|[o q] lines IH]; intros ps.
  - change (ordered oid []) with 0. simpl.
    destruct (stock_of oid ps); simpl; f_equal; lia.
  - cbn [stock_loop]. rewrite IH, stock_of_update_first, ordered_cons.
    destruct (o =? oid)%N; destruct (stock_of oid ps); simpl;
      try reflexivity; f_equal; lia.
Qed.

Section StockLoop.
Variable regex_compile : string -> string -> option (string -> bool).

Lemma db_update_one_by_id (st : store) (oid : ObjectId)
    (upd : ProductDoc.t -> ProductDoc.t) :
  db_update_one regex_compile product_c (by_id oid) upd (Some st)
  = (Return (snd (update_first (has_id oid) upd (product st))),
     Some (with_docs product_c
             (fst (update_first (has_id oid) upd (product st))) st)).
Proof.
  unfold db_update_one.
  rewrite (update_one_by_id regex_compile (product st) oid upd). simpl.
  destruct (update_first (has_id oid) upd (product st)); reflexivity.
Qed.

Lemma decrement_stock_cons (it : ItemDoc.t) (items : list ItemDoc.t)
    (st : store) (oid : ObjectId) :
  ObjectId_of_str (ItemDoc.product_id it) = Some oid ->
  decrement_stock regex_compile (it :: items) (Some st)
  = decrement_stock regex_compile items
      (Some (with_docs product_c
               (fst (update_first (has_id oid)
                       (inc_stock (- default 1 (ItemDoc.quantity it)))
                       (product st))) st)).
Proof.
  intros Hoid. cbn [decrement_stock]. rewrite Hoid. cbn [or_raise reading].
  rewrite db_update_one_by_id. reflexivity.
Qed.

(** On a connected store the loop fails only on a line whose id does not
    parse; otherwise it leaves the products as [stock_loop] says and
    everything else as it was. *)
Lemma decrement_stock_Some (items : list ItemDoc.t) (st : store)
    (lines : list (ObjectId * Z)) :
  mapM loop_line items = Some lines ->
  decrement_stock regex_compile items (Some st)
  = (Return (), Some (with_docs product_c (stock_loop lines (product st)) st)).
Proof.
  revert st lines. induction items as [|it items IH]; intros st lines Hm.
  - change (Some [] = Some lines) in Hm. injection Hm as <-.
    destruct st; reflexivity.
  - apply mapM_cons_Some in Hm as ([oid q] & ls & Hit & Hls & ->).
    unfold loop_line in Hit.
    destruct (ObjectId_of_str (ItemDoc.product_id it)) as [oid'|] eqn:Hoid;
      simpl in Hit; [|discriminate].
    injection Hit as -> <-.
    rewrite (decrement_stock_cons _ _ _ _ Hoid), (IH _ ls Hls).
    reflexivity.
Qed.

Lemma decrement_stock_lines (items : list ItemDoc.t) (st : store)
    (db' : database) :
  decrement_stock regex_compile items (Some st) = (Return (), db') ->
  exists lines, mapM loop_line items = Some lines.
Proof.
  revert st. induction items as [|it items IH]; intros st Hrun.
  - exists []. reflexivity.
  - destruct (ObjectId_of_str (ItemDoc.product_id it)) as [oid|] eqn:Hoid.
    + rewrite (decrement_stock_cons _ _ _ _ Hoid) in Hrun.
      destruct (IH _ Hrun) as (ls & Hls).
      exists ((oid, default 1 (ItemDoc.quantity it)) :: ls).
      cbn [mapM]. rewrite Hls. unfold loop_line. rewrite Hoid. reflexivity.
    + cbn [decrement_stock] in Hrun. rewrite Hoid in Hrun. discriminate.
Qed.

Lemma decrement_stock_Return (items : list ItemDoc.t) (st : store)
    (db' : database) :
  decrement_stock regex_compile items (Some st) = (Return (), db') ->
  exists lines,
    mapM loop_line items = Some lines /\
    db' = Some (with_docs product_c (stock_loop lines (product st)) st).
Proof.
  intros Hrun. destruct (decrement_stock_lines _ _ _ Hrun) as (lines & Hm).
  rewrite (decrement_stock_Some _ st lines Hm) in Hrun.
  injection Hrun as <-. eauto.
Qed.

End StockLoop.

(** ** Checkout: from a validated order to the response *)

Lemma for_each_parse_lines (items : list ItemDoc.t) (ids : list ObjectId) :
  for_each parse_line items = Return ids ->
  exists lines, mapM loop_line items = Some lines.
Proof.
  revert ids. induction items as [|it items IH]; intros ids Hf.
  - exists []. reflexivity.
  - cbn [for_each] in Hf.
    apply bind_Return in Hf as (o & Ho & Hf).
    apply bind_Return in Hf as (os & Hos & _).
    destruct (IH os Hos) as (ls & Hls).
    unfold parse_line in Ho.
    destruct (ObjectId_of_str (ItemDoc.product_id it)) as [oid|] eqn:Hoid;
      [|discriminate].
    exists ((oid, default 1 (ItemDoc.quantity it)) :: ls).
    cbn [mapM]. rewrite Hls. unfold loop_line. rewrite Hoid. reflexivity.
Qed.

Lemma mapM_loop_line_dump (lines : list CartItem.t) :
  mapM loop_line (dump_item <$> lines) = mapM order_line lines.
Proof.
  induction lines as [|l lines IH]; [reflexivity|].
  rewrite fmap_cons. cbn [mapM]. rewrite IH. reflexivity.
Qed.

Section CheckoutWrites.
Variable regex_compile : string -> string -> option (string -> bool).

(** Once the order is priced and validated, nothing fails any more. *)
Lemma checkout_of_order (req : CheckoutRequest.t) (st : store)
    (items : list ItemDoc.t) (amount : Py.number) (placed : Order.t)
    (lines : list (ObjectId * Z)) :
  checkout_order regex_compile req (Some st) = Return (items, amount, placed) ->
  mapM loop_line items = Some lines ->
  checkout regex_compile req (Some st)
  = (Return (CheckoutResponse.mk
               (str_of_ObjectId (fresh_id (stored_id <$> order st)))
               amount "created"),
     Some (after_checkout placed lines st)).
Proof.
  intros Hord Hlines. unfold checkout. rewrite Hord. cbn [reading].
  unfold create_document. cbn [writing].
  rewrite (decrement_stock_Some regex_compile items _ lines Hlines).
  reflexivity.
Qed.

Lemma checkout_order_intro (req : CheckoutRequest.t) (st : store)
    (oid : ObjectId) (cart : CartDoc.t) (rest : list CartDoc.t)
    (items : list ItemDoc.t) (ids : list ObjectId) (avg : Py.number)
    (order : Order.t) :
  to_obj_id (CheckoutRequest.cart_id req) = Return oid ->
  get_documents regex_compile cart_c (by_id oid) (Some 1%nat) (Some st)
  = Return (cart :: rest) ->
  default [] (CartDoc.items cart) = items ->
  items <> [] ->
  for_each parse_line items = Return ids ->
  let products := List.filter (id_in ids) (product st) in
  avg_fragility (fragility_map products) items = Some avg ->
  let sub := subtotal (price_map products) items in
  let amount :=
    total sub (shipping avg)
      (insurance (CheckoutRequest.insured req) sub avg)
      (premium_packaging_fee (CheckoutRequest.premium_packaging req)) in
  make_Order items sub (shipping avg)
    (insurance (CheckoutRequest.insured req) sub avg) amount req
  = Some order ->
  checkout_order regex_compile req (Some st) = Return (items, amount, order).
Proof.
  intros Hoid Hdocs Hitems Hne Hids products Havg sub amount Horder.
  unfold checkout_order. rewrite Hoid. cbn [bind]. rewrite Hdocs. cbn [bind].
  rewrite Hitems. destruct items as [|it its]; [contradiction|].
  fold parse_line. rewrite Hids. cbn [bind db_docs].
  rewrite find_id_in. cbn [bind].
  change (docs product_c st) with (product st). fold products.
  rewrite Havg. cbn [or_raise bind]. fold sub. fold amount.
  rewrite Horder. reflexivity.
Qed.

End CheckoutWrites.

(** ** Checkout: stock is decremented and never checked *)

Lemma filter_fmap_commute {A} (t : A -> bool) (g : A -> A) (l : list A) :
  (forall a, t (g a) = t a) ->
  List.filter t (g <$> l) = g <$> List.filter t l.
Proof.
  intros Hg. induction l as [|a l IH]; [reflexivity|].
  rewrite fmap_cons. simpl. rewrite Hg. destruct (t a).
  - rewrite fmap_cons, IH. reflexivity.
  - exact IH.
Qed.

Lemma price_map_restock (level : ProductDoc.t -> Z) (ps : list ProductDoc.t) :
  price_map ((fun p => set_stock (level p) p) <$> ps) = price_map ps.
Proof.
  unfold price_map. generalize (∅ : gmap string Py.number).
  induction ps as [|p ps IH]; intros m; [reflexivity|].
  rewrite fmap_cons. simpl. apply IH.
Qed.

Lemma fragility_map_restock (level : ProductDoc.t -> Z)
    (ps : list ProductDoc.t) :
  fragility_map ((fun p => set_stock (level p) p) <$> ps) = fragility_map ps.
Proof.
  unfold fragility_map. generalize (∅ : gmap string Z).
  induction ps as [|p ps IH]; intros m; [reflexivity|].
  rewrite fmap_cons. simpl. apply IH.
Qed.

Section CheckoutStock.
Variable regex_compile : string -> string -> option (string -> bool).

(** Pricing and validation never read a stock level. *)
Lemma checkout_order_restock (level : ProductDoc.t -> Z)
    (req : CheckoutRequest.t) (st : store) :
  checkout_order regex_compile req (Some (restock level st))
  = checkout_order regex_compile req (Some st).
Proof.
  unfold checkout_order.
  destruct (to_obj_id (CheckoutRequest.cart_id req)) as [oid| |];
    [|reflexivity..].
  cbn [bind].
  change (get_documents regex_compile cart_c (by_id oid) (Some 1%nat)
            (Some (restock level st)))
    with (get_documents regex_compile cart_c (by_id oid) (Some 1%nat) (Some st)).
  destruct (get_documents regex_compile cart_c (by_id oid) (Some 1%nat) (Some st))
    as [[|cart rest]| |]; try reflexivity.
  cbn [bind].
  destruct (default [] (CartDoc.items cart)) as [|it its]; [reflexivity|].
  destruct (for_each _ (it :: its)) as [ids| |]; try reflexivity.
  cbn [bind db_docs]. rewrite !find_id_in. cbn [bind].
  change (docs product_c (restock level st))
    with ((fun p => set_stock (level p) p) <$> product st).
  change (docs product_c st) with (product st).
  rewrite filter_fmap_commute by reflexivity.
  rewrite price_map_restock, fragility_map_restock. reflexivity.
Qed.

(** C5: after a successful checkout the products are as the stock loop
    leaves them: one independent update per cart line, each decreasing the
    stock of the product the line names by the line's quantity, so that a
    product's stored stock has decreased by the quantities of the lines that
    name it.  No sufficiency check is made: the same request succeeds with
    the same total whatever the stock levels are, and a product ordered in a
    larger quantity than its stock ends with a negative stock. *)
Theorem checkout_decrements_stock (req : CheckoutRequest.t) (db : database)
    (resp : CheckoutResponse.t) (db' : database) :
  checkout regex_compile req db = (Return resp, db') ->
  exists (st st' : store) (cart : CartDoc.t) (lines : list CartItem.t)
         (updates : list (ObjectId * Z)),
    db = Some st /\ db' = Some st' /\
    get_cart regex_compile (CheckoutRequest.cart_id req) db = Return cart /\
    CartDoc.items cart = Some (dump_item <$> lines) /\
    mapM order_line lines = Some updates /\
    product st' = stock_loop updates (product st) /\
    (forall oid : ObjectId,
        stock_of oid (product st')
        = (fun s => s - ordered oid updates) <$> stock_of oid (product st)) /\
    (forall (oid : ObjectId) (s : Z),
        stock_of oid (product st) = Some s -> s < ordered oid updates ->
        exists s', stock_of oid (product st') = Some s' /\ s' < 0) /\
    (forall level : ProductDoc.t -> Z,
        exists resp2 db2,
          checkout regex_compile req (Some (restock level st))
          = (Return resp2, db2) /\
          CheckoutResponse.amount_total resp2
          = CheckoutResponse.amount_total resp).
Proof.
  intros Hrun.
  apply checkout_Return in Hrun
    as (items & placed & order_id & db1 & Hord & Hcreate & Hdec & _).
  pose proof Hord as Hsteps.
  apply checkout_order_Return in Hsteps
    as (oid & cart & rest & ids & st & avg & Hoid & Hdocs & Hitems & Hne
        & Hids & -> & _ & _ & Horder).
  apply make_Order_lines in Horder as (lines & Hlines & _).
  apply mapM_validate_dump in Hlines.
  unfold create_document in Hcreate. injection Hcreate as <- <-.
  apply decrement_stock_Return in Hdec as (updates & Hupd & ->).
  assert (Hstock : forall o : ObjectId,
             stock_of o (stock_loop updates (product st))
             = (fun s => s - ordered o updates) <$> stock_of o (product st))
    by (intros o; apply stock_of_stock_loop).
  eexists st, _, cart, lines, updates.
  split; [reflexivity|]. split; [reflexivity|].
  split; [|split; [|split; [|split; [|split; [|split]]]]].
  - unfold get_cart. rewrite Hoid. cbn [bind]. rewrite Hdocs. reflexivity.
  - rewrite <- Hlines, <- Hitems.
    destruct (CartDoc.items cart) as [its|]; [reflexivity|].
    simpl in Hitems. congruence.
  - rewrite <- mapM_loop_line_dump, <- Hlines. exact Hupd.
  - reflexivity.
  - exact Hstock.
  - intros o s Hs Hlt. exists (s - ordered o updates).
    cbn [product with_docs product_c]. rewrite Hstock, Hs. split; [reflexivity|lia].
  - intros level.
    rewrite <- (checkout_order_restock level) in Hord.
    eexists _, _. split.
    + apply (checkout_of_order regex_compile req (restock level st) items
               (CheckoutResponse.amount_total resp) placed updates Hord Hupd).
    + reflexivity.
Qed.

End CheckoutStock.

(** A hundred vases ordered, five in stock: the order is placed and the
    stock of the vase ends at a negative level. *)
Lemma checkout_decrements_stock_witness :
  exists (st' : store) (s' : Z),
    snd (checkout pcre_lite (Sample.request true false)
           (Sample.shop
              (Some [ItemDoc.mk "000000000000000000000001" (Some 100)])))
    = Some st' /\
    stock_of Sample.vase_id (product st') = Some s' /\ s' < 0.
Proof.
  destruct (checkout_decrements_stock pcre_lite (Sample.request true false)
              (Sample.shop
                 (Some [ItemDoc.mk "000000000000000000000001" (Some 100)]))
              (CheckoutResponse.mk "000000000000000000000001"
                 (Py.Float 1074) "created")
              (snd (checkout pcre_lite (Sample.request true false)
                      (Sample.shop
                         (Some [ItemDoc.mk "000000000000000000000001"
                                  (Some 100)]))))
              ltac:(vm_compute; reflexivity))
    as (st & st' & cart & lines & updates & Hdb & Hdb' & Hcart & Hitems
        & Hupd & _ & _ & Hneg & _).
  injection Hdb as <-.
  vm_compute in Hcart. injection Hcart as <-.
  cbn [CartDoc.items] in Hitems.
  destruct lines as [|[pid q] [|l lines]]; try discriminate.
  injection Hitems as <- <-.
  vm_compute in Hupd. injection Hupd as <-.
  destruct (Hneg Sample.vase_id 5 eq_refl ltac:(vm_compute; reflexivity))
    as (s' & Hs' & Hlt).
  exists st', s'. repeat split; assumption.
Defined.

(** ** Checkout: a line whose product the lookup did not return *)

Lemma price_map_absent (products : list ProductDoc.t) (k : string) :
  (forall p, p ∈ products -> str_of_ObjectId (ProductDoc._id p) <> k) ->
  price_map products !! k = None.
Proof.
  unfold price_map.
  assert (Hgen : forall m : gmap string Py.number,
             (forall p, p ∈ products -> str_of_ObjectId (ProductDoc._id p) <> k) ->
             foldl (fun m p =>
                      <[str_of_ObjectId (ProductDoc._id p)
                          := Py.Float (ProductDoc.price p)]> m) m products !! k
             = m !! k).
  { induction products as [|p ps IH]; intros m Habs; [reflexivity|].
    simpl. rewrite IH.
    - apply lookup_insert_ne. apply Habs. left.
    - intros p' Hp'. apply Habs. right. exact Hp'. }
  intros Habs. rewrite (Hgen ∅ Habs). apply lookup_empty.
Qed.

Lemma fragility_map_absent (products : list ProductDoc.t) (k : string) :
  (forall p, p ∈ products -> str_of_ObjectId (ProductDoc._id p) <> k) ->
  fragility_map products !! k = None.
Proof.
  unfold fragility_map.
  assert (Hgen : forall m : gmap string Z,
             (forall p, p ∈ products -> str_of_ObjectId (ProductDoc._id p) <> k) ->
             foldl (fun m p =>
                      <[str_of_ObjectId (ProductDoc._id p)
                          := default 3 (ProductDoc.fragility_rating p)]> m)
                   m products !! k
             = m !! k).
  { induction products as [|p ps IH]; intros m Habs; [reflexivity|].
    simpl. rewrite IH.
    - apply lookup_insert_ne. apply Habs. left.
    - intros p' Hp'. apply Habs. right. exact Hp'. }
  intros Habs. rewrite (Hgen ∅ Habs). apply lookup_empty.
Qed.

Section CheckoutMissing.
Variable regex_compile : string -> string -> option (string -> bool).

(** C3: a cart line whose [product_id] is the id of none of the products
    the batched lookup returned contributes price 0 to the subtotal and
    fragility 3 to the fragility average.  No error is signalled for it:
    whether or not its lines resolve, a checkout on a resolved non-empty
    cart whose line ids are well formed and whose order validates returns
    its response. *)
Theorem checkout_missing_product :
  (forall (products : list ProductDoc.t) (it : ItemDoc.t),
      (forall p, p ∈ products ->
                 str_of_ObjectId (ProductDoc._id p) <> ItemDoc.product_id it) ->
      line_price (price_map products) it = Py.Int 0 /\
      line_fragility (fragility_map products) it = 3)
  /\
  (forall (req : CheckoutRequest.t) (st : store) (cart : CartDoc.t)
          (items : list ItemDoc.t) (ids : list ObjectId) (avg : Py.number)
          (placed : Order.t),
      get_cart regex_compile (CheckoutRequest.cart_id req) (Some st)
      = Return cart ->
      CartDoc.items cart = Some items ->
      items <> [] ->
      for_each parse_line items = Return ids ->
      let products := List.filter (id_in ids) (product st) in
      avg_fragility (fragility_map products) items = Some avg ->
      let sub := subtotal (price_map products) items in
      let amount :=
        total sub (shipping avg)
          (insurance (CheckoutRequest.insured req) sub avg)
          (premium_packaging_fee (CheckoutRequest.premium_packaging req)) in
      make_Order items sub (shipping avg)
        (insurance (CheckoutRequest.insured req) sub avg) amount req
      = Some placed ->
      exists (order_id : string) (st' : store),
        checkout regex_compile req (Some st)
        = (Return (CheckoutResponse.mk order_id amount "created"), Some st')).
Proof.
  split.
  - intros products it Habs. unfold line_price, line_fragility.
    rewrite (price_map_absent _ _ Habs), (fragility_map_absent _ _ Habs).
    simpl. split; [|reflexivity]. f_equal.
  - intros req st cart items ids avg placed Hcart Hitems Hne Hids products
           Havg sub amount Horder.
    apply get_cart_Return in Hcart as (oid & rest & Hoid & Hdocs).
    destruct (for_each_parse_lines _ _ Hids) as (lines & Hlines).
    assert (Hord : checkout_order regex_compile req (Some st)
                   = Return (items, amount, placed)).
    { apply (checkout_order_intro regex_compile req st oid cart rest items ids
               avg placed Hoid Hdocs); try assumption.
      rewrite Hitems. reflexivity. }
    eexists _, _.
    apply (checkout_of_order regex_compile req st items amount placed lines
             Hord Hlines).
Qed.

End CheckoutMissing.

(** Two vases and a line for a product the store does not hold: the
    missing line adds nothing to the subtotal of 20, counts as fragility 3,
    and the order is placed. *)
Lemma checkout_missing_product_witness :
  exists (order_id : string) (st' : store),
    checkout pcre_lite (Sample.request true false)
      (Sample.shop (Some [ItemDoc.mk "000000000000000000000001" (Some 2);
                          ItemDoc.mk "0000000000000000000000ff" (Some 7)]))
    = (Return (CheckoutResponse.mk order_id (Py.Float 35.2) "created"),
       Some st').
Proof.
  exact (proj2 (checkout_missing_product pcre_lite)
           (Sample.request true false)
           (Store [] [Sample.vase; Sample.bowl] []
              [CartDoc.mk Sample.cart_oid (Some "u1") None
                 (Some [ItemDoc.mk "000000000000000000000001" (Some 2);
                        ItemDoc.mk "0000000000000000000000ff" (Some 7)])]
              [] [] [] [])
           (CartDoc.mk Sample.cart_oid (Some "u1") None
              (Some [ItemDoc.mk "000000000000000000000001" (Some 2);
                     ItemDoc.mk "0000000000000000000000ff" (Some 7)]))
           [ItemDoc.mk "000000000000000000000001" (Some 2);
            ItemDoc.mk "0000000000000000000000ff" (Some 7)]
           [1%N; 255%N] (Py.Float 3)
           (Order.mk None None
              [CartItem.mk "000000000000000000000001" 2;
               CartItem.mk "0000000000000000000000ff" 7]
              20 14 1.2 35.2
              (Address.mk "Ada L" "1 Main St" None "Paris" None "75001" "FR"
                 None)
              (PaymentMethod.mk PaymentMethod.card None None)
              (ShippingOption.mk true false) Order.created None)
           eq_refl eq_refl ltac:(discriminate) eq_refl
           ltac:(vm_compute; reflexivity) ltac:(vm_compute; reflexivity)).
Defined.

(** ** Reviews *)

Lemma filter_nil_iff {A} (t : A -> bool) (l : list A) :
  List.filter t l = [] <-> forall a, a ∈ l -> t a = false.
Proof.
  induction l as [|a l IH]; simpl.
  - split; [|reflexivity]. intros _ a Ha. inversion Ha.
  - destruct (t a) eqn:Ha.
    + split; [discriminate|]. intros Hall.
      rewrite (Hall a) in Ha by left. discriminate.
    + rewrite IH. split.
      * intros Hall b Hb. apply elem_of_cons in Hb as [->|Hb]; auto.
      * intros Hall b Hb. apply Hall. right. exact Hb.
Qed.

Lemma filter_cons_iff {A} (t : A -> bool) (l : list A) :
  (exists a, a ∈ l /\ t a = true) ->
  exists a rest, List.filter t l = a :: rest /\ t a = true.
Proof.
  intros (a & Ha & Hta).
  destruct (List.filter t l) as [|b rest] eqn:Hf.
  - rewrite (proj1 (filter_nil_iff t l) Hf a Ha) in Hta. discriminate.
  - exists b, rest. split; [reflexivity|].
    assert (Hb : In b (List.filter t l)) by (rewrite Hf; left; reflexivity).
    apply filter_In in Hb. apply Hb.
Qed.

Lemma fresh_id_fresh (ids : list ObjectId) : fresh_id ids ∉ ids.
Proof.
  assert (Hmax : forall i, i ∈ ids -> (i <= foldr N.max 0 ids)%N).
  { induction ids as [|j ids IH]; intros i Hi; [inversion Hi|].
    simpl. apply elem_of_cons in Hi as [->|Hi]; [lia|].
    specialize (IH i Hi). lia. }
  intros Hin. apply Hmax in Hin. unfold fresh_id in Hin. lia.
Qed.

Section Reviews.
Variable regex_compile : string -> string -> option (string -> bool).

Lemma get_documents_by_id {D} `{DocumentLaws D} (c : collection D)
    (oid : ObjectId) (st : store) :
  get_documents regex_compile c (by_id oid) (Some 1%nat) (Some st)
  = Return (take 1 (List.filter (has_id oid) (docs c st))).
Proof.
  unfold get_documents.
  rewrite (find_by_id regex_compile (docs c st) oid). reflexivity.
Qed.


End Reviews.



(** ** Cart update *)

Lemma with_docs_cart_same (st : store) : with_docs cart_c (cart st) st = st.
Proof. destruct st; reflexivity. Qed.

(** [update_first] on a list with a match: the first match, at some index
    [i], is replaced and nothing else is. *)
Lemma update_first_insert {D} (t : D -> bool) (upd : D -> D) (ds : list D) :
  (exists d, d ∈ ds /\ t d = true) ->
  exists (i : nat) (c : D),
    ds !! i = Some c /\ t c = true /\
    List.filter t ds = c :: List.filter t (drop (S i) ds) /\
    update_first t upd ds = (<[i := upd c]> ds, 1).
Proof.
  induction ds as [|d ds IH]; intros (x & Hx & Htx); [inversion Hx|].
  simpl. destruct (t d) eqn:Hd.
  - exists 0%nat, d. simpl. rewrite drop_0. repeat split; assumption.
  - destruct IH as (i & c & Hi & Hc & Hf & Hu).
    { apply elem_of_cons in Hx as [->|Hx]; [congruence|]. eauto. }
    exists (S i), c. rewrite Hu. simpl. repeat split; assumption.
Qed.

Lemma filter_insert_first {D} (t : D -> bool) (ds : list D) (i : nat) (c c' : D) :
  ds !! i = Some c ->
  List.filter t ds = c :: List.filter t (drop (S i) ds) ->
  t c' = true ->
  List.filter t (<[i := c']> ds) = c' :: List.filter t (drop (S i) ds).
Proof.
  revert i. induction ds as [|d ds IH]; intros i Hi Hf Hc'; [discriminate|].
  destruct i as [|i]; simpl in *.
  - rewrite Hc'. reflexivity.
  - destruct (t d) eqn:Hd.
    + exfalso. injection Hf as -> Hf.
      assert (Hlen : (length (List.filter t ds)
                      <= length (List.filter t (drop (S i) ds)) )%nat)
        by (rewrite Hf; lia).
      assert (Hsplit : List.filter t ds
                       = List.filter t (take (S i) ds)
                           ++ List.filter t (drop (S i) ds)).
      { rewrite <- List.filter_app, take_drop. reflexivity. }
      rewrite Hsplit, length_app in Hlen.
      assert (Hin : In c (List.filter t (take (S i) ds))).
      { apply filter_In. split; [|exact Hd].
        apply list_elem_of_In, list_elem_of_lookup. exists i.
        rewrite lookup_take_lt by lia. exact Hi. }
      destruct (List.filter t (take (S i) ds)); [inversion Hin|].
      simpl in Hlen. lia.
    + apply IH; assumption.
Qed.

Section CartUpdate.
Variable regex_compile : string -> string -> option (string -> bool).

Lemma update_cart_Some (cart_id : string) (items : list CartItem.t)
    (st : store) (oid : ObjectId) :
  ObjectId_of_str cart_id = Some oid ->
  update_cart regex_compile cart_id items (Some st)
  = let '(ds, matched_count) :=
      update_first (has_id oid) (set_items (dump_item <$> items)) (cart st) in
    (if matched_count =? 0
     then HTTPException 404 "Cart not found" else Return true,
     Some (with_docs cart_c ds st)).
Proof.
  intros Hoid. unfold update_cart, to_obj_id. rewrite Hoid. cbn [reading].
  unfold db_update_one.
  rewrite (update_one_by_id regex_compile (docs cart_c st) oid).
  change (docs cart_c st) with (cart st).
  destruct (update_first _ _ (cart st)) as [ds n]. cbn [writing].
  destruct (n =? 0); reflexivity.
Qed.


(** C9: a PUT /api/cart/{id} that succeeds replaces one cart document, the
    first with the id, by a document with the same [_id], [user_id] and
    [session_id] and the new item list; every other cart document and every
    other collection is as it was.  A PUT that fails changes nothing. *)
Theorem update_cart_frame (cart_id : string) (items : list CartItem.t)
    (db : database) (res : outcome bool) (db' : database) :
  update_cart regex_compile cart_id items db = (res, db') ->
  (res <> Return true /\ db' = db)
  \/
  (res = Return true /\
   exists (st st' : store) (i : nat) (c : CartDoc.t),
     db = Some st /\ db' = Some st' /\
     ObjectId_of_str cart_id = Some (CartDoc._id c) /\
     cart st !! i = Some c /\
     cart st'
     = <[i := CartDoc.mk (CartDoc._id c) (CartDoc.user_id c)
                (CartDoc.session_id c) (Some (dump_item <$> items))]> (cart st) /\
     category st' = category st /\ product st' = product st /\
     review st' = review st /\ order st' = order st /\
     packagingguide st' = packagingguide st /\ about st' = about st /\
     notification st' = notification st).
Proof.
  intros Hrun. destruct db as [st|].
  2:{ left. injection Hrun as <- <-. split; [discriminate|reflexivity]. }
  destruct (ObjectId_of_str cart_id) as [oid|] eqn:Hoid.
  2:{ left. unfold update_cart, to_obj_id in Hrun. rewrite Hoid in Hrun.
      injection Hrun as <- <-. split; [discriminate|reflexivity]. }
  rewrite (update_cart_Some _ _ _ _ Hoid) in Hrun.
  destruct (List.filter (has_id oid) (cart st)) as [|c0 rest] eqn:Hf.
  - left. rewrite (update_first_none _ _ _ Hf) in Hrun.
    cbv beta iota zeta in Hrun.
    rewrite with_docs_cart_same in Hrun. injection Hrun as <- <-.
    split; [discriminate|reflexivity].
  - right.
    destruct (update_first_insert (has_id oid)
                (set_items (dump_item <$> items)) (cart st))
      as (i & c & Hi & Hc & _ & Hu).
    { exists c0.
      assert (Hin : In c0 (List.filter (has_id oid) (cart st)))
        by (rewrite Hf; left; reflexivity).
      apply filter_In in Hin as [Hin Ht]. split; [|exact Ht].
      apply list_elem_of_In. exact Hin. }
    rewrite Hu in Hrun. simpl in Hrun. injection Hrun as <- <-.
    split; [reflexivity|].
    unfold has_id in Hc. apply N.eqb_eq in Hc.
    eexists st, _, i, c. split; [reflexivity|]. split; [reflexivity|].
    split; [f_equal; symmetry; exact Hc|].
    split; [exact Hi|]. repeat split.
Qed.

End CartUpdate.



(** The cart of user u1 gets three bowls: its owner and the products are
    as before. *)
Lemma update_cart_frame_witness :
  exists st' : store,
    snd (update_cart pcre_lite "000000000000000000000010"
           [CartItem.mk "000000000000000000000002" 3]
           (Sample.shop (Some [ItemDoc.mk "000000000000000000000001" (Some 2)])))
    = Some st' /\
    product st' = [Sample.vase; Sample.bowl] /\
    cart st'
    = [CartDoc.mk Sample.cart_oid (Some "u1") None
         (Some [ItemDoc.mk "000000000000000000000002" (Some 3)])].
Proof.
  destruct (update_cart_frame pcre_lite "000000000000000000000010"
              [CartItem.mk "000000000000000000000002" 3]
              (Sample.shop
                 (Some [ItemDoc.mk "000000000000000000000001" (Some 2)]))
              (Return true)
              (snd (update_cart pcre_lite "000000000000000000000010"
                      [CartItem.mk "000000000000000000000002" 3]
                      (Sample.shop
                         (Some [ItemDoc.mk "000000000000000000000001"
                                  (Some 2)]))))
              eq_refl)
    as [[Hne _]|(_ & st & st' & i & c & Hdb & Hdb' & _ & Hi & Hcart & _
                 & Hprod & _)].
  - exfalso. apply Hne. reflexivity.
  - injection Hdb as <-. exists st'.
    split; [exact Hdb'|]. split; [exact Hprod|].
    rewrite Hcart. cbn [cart] in *.
    destruct i as [|i]; [|destruct i; discriminate].
    injection Hi as <-. reflexivity.
Defined.

(** ** Product search *)

Lemma lower_string_cons (c : ascii) (s : string) :
  lower_string (String c s) = String (lower c) (lower_string s).
Proof. reflexivity. Qed.

Lemma iprefix_spec (q s : string) :
  iprefix q s = true <->
  exists mid post : string,
    s = String.append mid post /\ lower_string mid = lower_string q.
Proof.
  revert s. induction q as [|a q IH]; intros s.
  - split; [|reflexivity]. intros _. exists EmptyString, s. split; reflexivity.
  - destruct s as [|b s]; simpl.
    + split; [discriminate|]. intros (mid & post & Hs & Hl).
      destruct mid; [discriminate|discriminate].
    + rewrite andb_true_iff, IH. unfold ieqb. rewrite Ascii.eqb_eq. split.
      * intros (Hab & mid & post & -> & Hl).
        exists (String b mid), post. split; [reflexivity|].
        rewrite !lower_string_cons, Hl, Hab. reflexivity.
      * intros (mid & post & Hs & Hl).
        destruct mid as [|b' mid]; [discriminate|].
        simpl in Hs. injection Hs as <- ->.
        rewrite !lower_string_cons in Hl. injection Hl as Hb Hl.
        split; [symmetry; exact Hb|]. exists mid, post. split; [reflexivity|exact Hl].
Qed.

Lemma icontains_spec (q s : string) : icontains q s = true <-> isubstring q s.
Proof.
  unfold isubstring. induction s as [|c s IH].
  - simpl. rewrite orb_false_r, iprefix_spec. split.
    + intros (mid & post & Hs & Hl). exists EmptyString, mid, post.
      split; assumption.
    + intros (pre & mid & post & Hs & Hl).
      destruct pre; [|discriminate]. exists mid, post. split; assumption.
  - cbn [icontains]. rewrite orb_true_iff, iprefix_spec, IH. split.
    + intros [(mid & post & Hs & Hl)|(pre & mid & post & Hs & Hl)].
      * exists EmptyString, mid, post. split; assumption.
      * exists (String c pre), mid, post. rewrite Hs. split; [reflexivity|exact Hl].
    + intros (pre & mid & post & Hs & Hl). destruct pre as [|c' pre].
      * left. exists mid, post. split; assumption.
      * right. simpl in Hs. injection Hs as <- ->.
        exists pre, mid, post. split; [reflexivity|exact Hl].
Qed.

(** The reference engine is such an engine. *)
Lemma metachar_false (c : ascii) :
  metachar c = false -> Ascii.eqb c "\" = false /\ Ascii.eqb c "." = false.
Proof.
  unfold metachar. simpl. intros Hm.
  destruct (Ascii.eqb c "\"); [discriminate|].
  destruct (Ascii.eqb c "^"); [discriminate|].
  destruct (Ascii.eqb c "$"); [discriminate|].
  destruct (Ascii.eqb c "."); [discriminate|].
  split; reflexivity.
Qed.

Lemma parse_atoms_literal (q : string) :
  literal q = true -> parse_atoms q = Some (Lit <$> list_ascii_of_string q).
Proof.
  induction q as [|c q IH]; [reflexivity|].
  cbn [literal]. rewrite andb_true_iff, negb_true_iff. intros [Hc Hq].
  destruct (metachar_false c Hc) as [Hb Hd].
  cbn [parse_atoms]. rewrite Hb, Hd, Hc, (IH Hq). reflexivity.
Qed.

Lemma match_here_literal (q s : string) :
  match_here true (Lit <$> list_ascii_of_string q) s = iprefix q s.
Proof.
  revert s. induction q as [|c q IH]; intros s; [reflexivity|].
  destruct s as [|b s]; [reflexivity|].
  cbn [list_ascii_of_string]. rewrite fmap_cons. cbn [match_here iprefix].
  rewrite IH. reflexivity.
Qed.

Lemma search_literal (q s : string) :
  search true (Lit <$> list_ascii_of_string q) s = icontains q s.
Proof.
  induction s as [|c s IH]; cbn [search icontains];
    rewrite match_here_literal; [reflexivity|].
  rewrite IH. reflexivity.
Qed.

Lemma pcre_lite_literal : literal_engine pcre_lite.
Proof.
  intros q Hq. exists (search true (Lit <$> list_ascii_of_string q)). split.
  - unfold pcre_lite. simpl. rewrite (parse_atoms_literal q Hq). reflexivity.
  - apply search_literal.
Qed.

Section Search.
Variable regex_compile : string -> string -> option (string -> bool).
Hypothesis engine_literal : literal_engine regex_compile.

Lemma compile_search (q : string) :
  literal q = true ->
  exists t : ProductDoc.t -> bool,
    compile_clause regex_compile
      (Or_ [[("title", Regex q "i")]; [("description", Regex q "i")]])
    = Some t /\
    forall p, t p = icontains q (ProductDoc.title p)
                    || icontains q (ProductDoc.description p).
Proof.
  intros Hlit. destruct (engine_literal q Hlit) as (m & Hm & Hms).
  eexists. split.
  - cbn [compile_clause compile_or compile_fields].
    unfold compile_field, compile_cond. rewrite Hm. reflexivity.
  - intros p. cbv beta.
    change (field "title" p) with (Some (BString (ProductDoc.title p))).
    change (field "description" p)
      with (Some (BString (ProductDoc.description p))).
    cbv iota. rewrite !Hms, !andb_true_r, orb_false_r. reflexivity.
Qed.

(** C6, amended: for GET /api/products on a connected store, when the
    query [q] is non-empty and holds no regular-expression metacharacter,
    the products [list_products] returns are exactly those, in stored
    order, whose title or description contains [q] as a case-insensitive
    substring; when a category slug is also given, exactly those among them
    whose category is the slug.  The route answers with these products,
    each validated against the Product schema.  (The query is handed to the
    store as a case-insensitive regular expression, hence the condition on
    [q].) *)
Theorem list_products_literal (category : option string) (q : string)
    (st : store) :
  q <> EmptyString ->
  literal q = true ->
  list_products regex_compile category (Some q) (Some st)
  = Return (List.filter (wanted category q) (product st))
  /\ (forall p : ProductDoc.t,
        In p (List.filter (wanted category q) (product st)) <->
        In p (product st)
        /\ match category with
           | Some (String _ _ as c) => ProductDoc.category p = c
           | _ => True
           end
        /\ (isubstring q (ProductDoc.title p)
            \/ isubstring q (ProductDoc.description p)))
  /\ GET_api_products regex_compile category (Some q) (Some st)
     = or_raise ResponseValidationError
         (mapM validate_Product
            (List.filter (wanted category q) (product st))).
Proof.
  intros Hq Hlit.
  assert (Hlist : list_products regex_compile category (Some q) (Some st)
                  = Return (List.filter (wanted category q) (product st))).
  { destruct (compile_search q Hlit) as (t & Ht & Hts).
    destruct q as [|a q']; [contradiction|].
    unfold list_products, get_documents, find.
    change (docs product_c st) with (product st).
    destruct category as [[|b c]|]; cbn [app compile_filter];
      rewrite Ht; simpl; f_equal; apply filter_ext_eq; intros p;
      unfold wanted; rewrite Hts, ?andb_true_r; reflexivity. }
  split; [exact Hlist|]. split.
  - intros p. rewrite filter_In. unfold wanted.
    rewrite andb_true_iff, orb_true_iff, !icontains_spec.
    destruct category as [[|b c]|]; rewrite ?String.eqb_eq; tauto.
  - unfold GET_api_products. rewrite Hlist. reflexivity.
Qed.

End Search.

(** A search for "glass" in category "vases" finds the vase, whose
    description reads "Hand-blown Glass". *)
Lemma list_products_literal_witness :
  list_products pcre_lite (Some "vases") (Some "glass") (Sample.shop None)
  = Return [Sample.vase].
Proof.
  exact (proj1 (list_products_literal pcre_lite pcre_lite_literal
                  (Some "vases") "glass"
                  (Store [] [Sample.vase; Sample.bowl] []
                     [CartDoc.mk Sample.cart_oid (Some "u1") None None]
                     [] [] [] [])
                  ltac:(discriminate) eq_refl)).
Defined.

(** C6 as stated fails on a query with a metacharacter: "v.se" is a
    substring of no title or description of the shop, and the search
    returns the vase, whose title matches it as a regular expression. *)
Lemma list_products_regex_counterexample :
  List.filter (wanted None "v.se") [Sample.vase; Sample.bowl] = [] /\
  list_products pcre_lite None (Some "v.se") (Sample.shop None)
  = Return [Sample.vase] /\
  list_products pcre_lite None (Some "v.se") (Sample.shop None)
  <> Return (List.filter (wanted None "v.se") [Sample.vase; Sample.bowl]).
Proof. repeat split. discriminate. Qed.

(** ** Checkout: a product id written in upper case *)

Lemma hex_char_lower (d : N) :
  (d < 16)%N ->
  (let n := N_of_ascii (hex_char d) in (65 <=? n) && (n <=? 70))%N = false.
Proof.
  intros Hd.
  assert (Hcases : (d = 0 \/ d = 1 \/ d = 2 \/ d = 3 \/ d = 4 \/ d = 5
                    \/ d = 6 \/ d = 7 \/ d = 8 \/ d = 9 \/ d = 10 \/ d = 11
                    \/ d = 12 \/ d = 13 \/ d = 14 \/ d = 15)%N) by lia.
  repeat (destruct Hcases as [->|Hcases]; [reflexivity|]).
  subst d. reflexivity.
Qed.

Lemma hexlify_lower (digits : nat) (n : N) (acc : string) :
  has_upper_hex acc = false -> has_upper_hex (hexlify digits n acc) = false.
Proof.
  revert n acc. induction digits as [|k IH]; intros n acc Hacc; [exact Hacc|].
  cbn [hexlify]. apply IH. unfold has_upper_hex in *.
  cbn [list_ascii_of_string existsb]. rewrite Hacc, orb_false_r.
  apply hex_char_lower. apply N.mod_lt. discriminate.
Qed.

Lemma str_of_ObjectId_lower (oid : ObjectId) :
  has_upper_hex (str_of_ObjectId oid) = false.
Proof. apply hexlify_lower. reflexivity. Qed.

(** A cart line whose [product_id] has a hexadecimal letter in upper case
    is the key of no entry of the price and fragility maps, whose keys are
    printed in lower case: it is priced 0 and counts fragility 3, also when
    the id it spells is that of a product the lookup returned. *)
Theorem upper_case_product_id_unpriced (products : list ProductDoc.t)
    (it : ItemDoc.t) :
  has_upper_hex (ItemDoc.product_id it) = true ->
  line_price (price_map products) it = Py.Int 0 /\
  line_fragility (fragility_map products) it = 3.
Proof.
  intros Hup.
  assert (Habs : forall p, p ∈ products ->
                   str_of_ObjectId (ProductDoc._id p) <> ItemDoc.product_id it).
  { intros p _ Heq. rewrite <- Heq, str_of_ObjectId_lower in Hup.
    discriminate. }
  unfold line_price, line_fragility.
  rewrite (price_map_absent _ _ Habs), (fragility_map_absent _ _ Habs).
  simpl. split; [|reflexivity]. f_equal.
Qed.

(** The bowl has id ...02; a line for three of "...0B", the id of an oak
    board held by the store, is looked up and found, priced 0, and three
    boards leave the stock. *)
Lemma upper_case_product_id_unpriced_witness :
  line_price
    (price_map
       [ProductDoc.mk 11%N "Board" "board" "Oak" 30.0 "kitchen" 4 (Some 2)
          None true [] None])
    (ItemDoc.mk "00000000000000000000000B" (Some 3))
  = Py.Int 0 /\
  line_fragility
    (fragility_map
       [ProductDoc.mk 11%N "Board" "board" "Oak" 30.0 "kitchen" 4 (Some 2)
          None true [] None])
    (ItemDoc.mk "00000000000000000000000B" (Some 3))
  = 3.
Proof.
  exact (upper_case_product_id_unpriced
           [ProductDoc.mk 11%N "Board" "board" "Oak" 30.0 "kitchen" 4 (Some 2)
              None true [] None]
           (ItemDoc.mk "00000000000000000000000B" (Some 3)) eq_refl).
Defined.

Example upper_case_product_id_checkout :
  let board :=
    ProductDoc.mk 11%N "Board" "board" "Oak" 30.0 "kitchen" 4 (Some 2)
      None true [] None in
  let db :=
    Some (Store [] [board] []
            [CartDoc.mk Sample.cart_oid None None
               (Some [ItemDoc.mk "00000000000000000000000B" (Some 3)])]
            [] [] [] []) in
  exists st',
    checkout pcre_lite (Sample.request false false) db
    = (Return (CheckoutResponse.mk "000000000000000000000001" (Py.Float 14)
                 "created"), Some st')
    /\ stock_of 11%N (product st') = Some 1.
Proof. eexists. split; vm_compute; reflexivity. Qed.

(** * Further properties of the handlers *)

(** ** Checkout: how it fails *)


Lemma mapM_fails {A B} (f : A -> option B) (xs : list A) :
  (exists x, x ∈ xs /\ f x = None) -> mapM f xs = None.
Proof.
  induction xs as [|a xs IH]; intros (x & Hin & Hx); [inversion Hin|].
  cbn [mapM]. destruct (f a) as [b|] eqn:Hfa; [|reflexivity]. simpl.
  rewrite IH; [reflexivity|].
  apply elem_of_cons in Hin as [->|Hin]; [congruence|]. eauto.
Qed.

Lemma avg_fragility_defined (fm : gmap string Z) (items : list ItemDoc.t) :
  items <> [] -> exists avg, avg_fragility fm items = Some avg.
Proof.
  intros Hne. rewrite avg_fragility_mean. unfold Py.truediv.
  destruct items as [|i items]; [contradiction|].
  simpl length. destruct (Z.of_nat (S (length items)) =? 0) eqn:Hz; [|eauto].
  apply Z.eqb_eq in Hz. lia.
Qed.

Section CheckoutFailures.
Variable regex_compile : string -> string -> option (string -> bool).

(** Checkout with a well-formed cart id that no cart has, on a connected
    store: status 404 with detail "Cart not found", and the store is as it
    was. *)
Theorem checkout_unknown_cart (req : CheckoutRequest.t) (st : store)
    (oid : ObjectId) :
  ObjectId_of_str (CheckoutRequest.cart_id req) = Some oid ->
  (forall c, c ∈ cart st -> CartDoc._id c <> oid) ->
  checkout regex_compile req (Some st)
  = (HTTPException 404 "Cart not found", Some st).
Proof.
  intros Hoid Hnone. unfold checkout, checkout_order, to_obj_id.
  rewrite Hoid. cbn [bind].
  rewrite (get_documents_by_id regex_compile cart_c oid st).
  change (docs cart_c st) with (cart st).
  assert (Hf : List.filter (has_id oid) (cart st) = []).
  { apply filter_nil_iff. intros c Hc. unfold has_id.
    apply N.eqb_neq. apply Hnone. exact Hc. }
  rewrite Hf. reflexivity.
Qed.


(** A stored cart line without a quantity, or with a quantity below 1,
    never yields an order: with every line id well formed, checkout prices
    the cart (reading an absent quantity as 1) and then ends in a pydantic
    ValidationError, with nothing written. *)
Theorem checkout_invalid_quantity (req : CheckoutRequest.t) (db : database)
    (cart : CartDoc.t) (items : list ItemDoc.t) (ids : list ObjectId) :
  get_cart regex_compile (CheckoutRequest.cart_id req) db = Return cart ->
  CartDoc.items cart = Some items ->
  for_each parse_line items = Return ids ->
  (exists it, it ∈ items /\
              match ItemDoc.quantity it with
              | Some q => q < 1
              | None => True
              end) ->
  checkout regex_compile req db = (Raise ValidationError, db).
Proof.
  intros Hcart Hitems Hids (it & Hin & Hq).
  apply get_cart_Return in Hcart as (oid & rest & Hoid & Hdocs).
  assert (Hne : items <> []) by (intros ->; inversion Hin).
  assert (Hval : mapM validate_CartItem items = None).
  { apply mapM_fails. exists it. split; [exact Hin|].
    unfold validate_CartItem. destruct (ItemDoc.quantity it) as [q|];
      [|reflexivity].
    destruct (1 <=? q) eqn:Hle; [|reflexivity]. apply Z.leb_le in Hle. lia. }
  destruct db as [st|]; [|discriminate].
  unfold checkout, checkout_order. rewrite Hoid. cbn [bind].
  rewrite Hdocs. cbn [bind]. rewrite Hitems.
  change (default [] (Some items)) with items.
  destruct items as [|i items]; [contradiction|].
  change (for_each _ (i :: items)) with (for_each parse_line (i :: items)).
  rewrite Hids. cbn [bind db_docs].
  rewrite find_id_in. cbn [bind].
  destruct (avg_fragility_defined
              (fragility_map (List.filter (id_in ids) (docs product_c st)))
              (i :: items) Hne) as (avg & Havg).
  rewrite Havg. cbn [or_raise bind].
  unfold make_Order. rewrite Hval. reflexivity.
Qed.


End CheckoutFailures.

Lemma checkout_unknown_cart_witness :
  checkout pcre_lite
    (CheckoutRequest.mk "0000000000000000000000aa" Sample.address
       Sample.payment true false)
    (Sample.shop None)
  = (HTTPException 404 "Cart not found", Sample.shop None).
Proof.
  apply (checkout_unknown_cart pcre_lite
           (CheckoutRequest.mk "0000000000000000000000aa" Sample.address
              Sample.payment true false)
           (Store [] [Sample.vase; Sample.bowl] []
              [CartDoc.mk Sample.cart_oid (Some "u1") None None] [] [] [] [])
           170%N eq_refl).
  intros c Hc. apply elem_of_cons in Hc as [->|Hc]; [discriminate|].
  inversion Hc.
Defined.


Lemma checkout_invalid_quantity_witness :
  checkout pcre_lite (Sample.request true false)
    (Sample.shop (Some [ItemDoc.mk "000000000000000000000001" None]))
  = (Raise ValidationError,
     Sample.shop (Some [ItemDoc.mk "000000000000000000000001" None])).
Proof.
  apply (checkout_invalid_quantity pcre_lite (Sample.request true false)
           (Sample.shop (Some [ItemDoc.mk "000000000000000000000001" None]))
           (CartDoc.mk Sample.cart_oid (Some "u1") None
              (Some [ItemDoc.mk "000000000000000000000001" None]))
           [ItemDoc.mk "000000000000000000000001" None] [1%N]
           eq_refl eq_refl eq_refl).
  exists (ItemDoc.mk "000000000000000000000001" None). split; [left|exact I].
Defined.


(** ** Checkout: what a placed order leaves in the store *)

Lemma same_but_stock_refl (p : ProductDoc.t) : same_but_stock p p.
Proof.
  unfold same_but_stock, inc_stock. destruct p; simpl. f_equal. lia.
Qed.

Lemma same_but_stock_inc (n : Z) (p : ProductDoc.t) :
  same_but_stock p (inc_stock n p).
Proof.
  unfold same_but_stock, inc_stock. destruct p; simpl. f_equal. lia.
Qed.

Lemma same_but_stock_trans (p q r : ProductDoc.t) :
  same_but_stock p q -> same_but_stock q r -> same_but_stock p r.
Proof.
  unfold same_but_stock, inc_stock. intros -> ->. destruct p; simpl.
  f_equal. lia.
Qed.

Lemma Forall2_same_but_stock_refl (ps : list ProductDoc.t) :
  Forall2 same_but_stock ps ps.
Proof.
  induction ps; constructor; [apply same_but_stock_refl|assumption].
Qed.

Lemma update_first_same_but_stock (t : ProductDoc.t -> bool) (n : Z)
    (ps : list ProductDoc.t) :
  Forall2 same_but_stock ps (fst (update_first t (inc_stock n) ps)).
Proof.
  induction ps as [|p ps IH]; simpl; [constructor|].
  destruct (t p).
  - constructor; [apply same_but_stock_inc|apply Forall2_same_but_stock_refl].
  - destruct (update_first t (inc_stock n) ps) as [r k]. simpl in *.
    constructor; [apply same_but_stock_refl|exact IH].
Qed.

Lemma Forall2_same_but_stock_trans (ps qs rs : list ProductDoc.t) :
  Forall2 same_but_stock ps qs -> Forall2 same_but_stock qs rs ->
  Forall2 same_but_stock ps rs.
Proof.
  intros H. revert rs. induction H as [|p q ps qs Hpq _ IH]; intros rs Hqr.
  - inversion Hqr. constructor.
  - inversion Hqr as [|q' r qs' rs' Hqr1 Hqr2]; subst.
    constructor; [exact (same_but_stock_trans _ _ _ Hpq Hqr1)|].
    apply IH. exact Hqr2.
Qed.

Lemma stock_loop_same_but_stock (lines : list (ObjectId * Z))
    (ps : list ProductDoc.t) :
  Forall2 same_but_stock ps (stock_loop lines ps).
Proof.
  revert ps. induction lines as [|[oid q] lines IH]; intros ps.
  - apply Forall2_same_but_stock_refl.
  - cbn [stock_loop].
    eapply Forall2_same_but_stock_trans;
      [apply update_first_same_but_stock|apply IH].
Qed.

Lemma filter_same_but_stock (ids : list ObjectId) (ps ps' : list ProductDoc.t) :
  Forall2 same_but_stock ps ps' ->
  Forall2 same_but_stock (List.filter (id_in ids) ps)
                         (List.filter (id_in ids) ps').
Proof.
  induction 1 as [|p p' ps ps' Hp _ IH]; [constructor|].
  simpl. replace (id_in ids p') with (id_in ids p)
    by (rewrite Hp; reflexivity).
  destruct (id_in ids p); [constructor; assumption|exact IH].
Qed.

Lemma price_map_same_but_stock (ps ps' : list ProductDoc.t) :
  Forall2 same_but_stock ps ps' -> price_map ps' = price_map ps.
Proof.
  unfold price_map. generalize (∅ : gmap string Py.number).
  intros m H. revert m.
  induction H as [|p p' ps ps' Hp _ IH]; intros m; [reflexivity|].
  simpl. rewrite IH. rewrite Hp. reflexivity.
Qed.

Lemma fragility_map_same_but_stock (ps ps' : list ProductDoc.t) :
  Forall2 same_but_stock ps ps' -> fragility_map ps' = fragility_map ps.
Proof.
  unfold fragility_map. generalize (∅ : gmap string Z).
  intros m H. revert m.
  induction H as [|p p' ps ps' Hp _ IH]; intros m; [reflexivity|].
  simpl. rewrite IH. rewrite Hp. reflexivity.
Qed.

Lemma make_Order_Some items sub ship ins amount req placed :
  make_Order items sub ship ins amount req = Some placed ->
  mapM validate_CartItem items = Some (Order.items placed) /\
  validate_Address (CheckoutRequest.shipping_address req)
  = Some (Order.shipping_address placed) /\
  validate_PaymentMethod (CheckoutRequest.payment req)
  = Some (Order.payment placed) /\
  Order.amount_subtotal placed = Py.as_float sub /\
  Order.amount_shipping placed = Py.as_float ship /\
  Order.amount_insurance placed = Py.as_float ins /\
  Order.amount_total placed = Py.as_float amount /\
  Py.ge0 (Py.as_float sub) = true /\ Py.ge0 (Py.as_float ship) = true /\
  Py.ge0 (Py.as_float ins) = true /\ Py.ge0 (Py.as_float amount) = true /\
  Order.shipping placed
  = ShippingOption.mk (CheckoutRequest.insured req)
      (CheckoutRequest.premium_packaging req) /\
  Order.status placed = Order.created /\
  Order.user_id placed = None /\ Order.cart_id placed = None /\
  Order.estimated_delivery placed = None.
Proof.
  unfold make_Order. intros Hm.
  destruct (mapM validate_CartItem items) as [lines|]; [|discriminate].
  simpl in Hm.
  destruct (validate_Address _) as [a|]; [|discriminate]. simpl in Hm.
  destruct (validate_PaymentMethod _) as [pm|]; [|discriminate]. simpl in Hm.
  destruct (Py.ge0 (Py.as_float sub)) eqn:H1; [|discriminate].
  destruct (Py.ge0 (Py.as_float ship)) eqn:H2; [|discriminate].
  destruct (Py.ge0 (Py.as_float ins)) eqn:H3; [|discriminate].
  destruct (Py.ge0 (Py.as_float amount)) eqn:H4; [|discriminate].
  injection Hm as <-. simpl. repeat split; reflexivity.
Qed.

Section CheckoutOrder.
Variable regex_compile : string -> string -> option (string -> bool).

(** Pricing and validation read the carts and, of the products, only ids,
    prices and fragilities. *)
Lemma checkout_order_same_but_stock (req : CheckoutRequest.t) (st st' : store) :
  cart st' = cart st ->
  Forall2 same_but_stock (product st) (product st') ->
  checkout_order regex_compile req (Some st')
  = checkout_order regex_compile req (Some st).
Proof.
  intros Hcart Hprod. unfold checkout_order.
  destruct (to_obj_id (CheckoutRequest.cart_id req)) as [oid| |];
    [|reflexivity..].
  cbn [bind].
  replace (get_documents regex_compile cart_c (by_id oid) (Some 1%nat) (Some st'))
    with (get_documents regex_compile cart_c (by_id oid) (Some 1%nat) (Some st))
    by (unfold get_documents; cbn [docs cart_c]; rewrite Hcart; reflexivity).
  destruct (get_documents regex_compile cart_c (by_id oid) (Some 1%nat) (Some st))
    as [[|c rest]| |]; try reflexivity.
  cbn [bind].
  destruct (default [] (CartDoc.items c)) as [|it its]; [reflexivity|].
  destruct (for_each _ (it :: its)) as [ids| |]; try reflexivity.
  cbn [bind db_docs]. rewrite !find_id_in. cbn [bind].
  change (docs product_c st') with (product st').
  change (docs product_c st) with (product st).
  pose proof (filter_same_but_stock ids _ _ Hprod) as Hf.
  rewrite (price_map_same_but_stock _ _ Hf),
          (fragility_map_same_but_stock _ _ Hf).
  reflexivity.
Qed.

(** A checkout that returns has appended exactly one order to the order
    collection, under a fresh id that the response carries as [order_id]:
    the order holds the cart's lines, the validated address and payment,
    the request's shipping options, the total of the response, status
    "created", and no reference to a user or to the cart.  The carts (the
    checked-out cart included), reviews and all other collections are as
    before, and the products differ from what they were in stock only. *)
Theorem checkout_places_order (req : CheckoutRequest.t) (db : database)
    (resp : CheckoutResponse.t) (db' : database) :
  checkout regex_compile req db = (Return resp, db') ->
  exists (st st' : store) (placed : Order.t) (c : CartDoc.t),
    db = Some st /\ db' = Some st' /\
    order st' = order st ++ [Stored (fresh_id (stored_id <$> order st)) placed] /\
    (forall d, d ∈ order st ->
               stored_id d <> fresh_id (stored_id <$> order st)) /\
    CheckoutResponse.order_id resp
    = str_of_ObjectId (fresh_id (stored_id <$> order st)) /\
    CheckoutResponse.status resp = "created"%string /\
    get_cart regex_compile (CheckoutRequest.cart_id req) db = Return c /\
    CartDoc.items c = Some (dump_item <$> Order.items placed) /\
    validate_Address (CheckoutRequest.shipping_address req)
    = Some (Order.shipping_address placed) /\
    validate_PaymentMethod (CheckoutRequest.payment req)
    = Some (Order.payment placed) /\
    Order.shipping placed
    = ShippingOption.mk (CheckoutRequest.insured req)
        (CheckoutRequest.premium_packaging req) /\
    Order.amount_total placed
    = Py.as_float (CheckoutResponse.amount_total resp) /\
    Order.status placed = Order.created /\
    Order.user_id placed = None /\ Order.cart_id placed = None /\
    cart st' = cart st /\ review st' = review st /\
    category st' = category st /\ packagingguide st' = packagingguide st /\
    about st' = about st /\ notification st' = notification st /\
    Forall2 same_but_stock (product st) (product st').
Proof.
  intros Hrun.
  apply checkout_Return in Hrun
    as (items & placed & order_id & db1 & Hord & Hcreate & Hdec & Hresp).
  pose proof Hord as Hsteps.
  apply checkout_order_Return in Hsteps
    as (oid & c & rest & ids & st & avg & Hoid & Hdocs & Hitems & Hne
        & Hids & -> & _ & _ & Horder).
  apply make_Order_Some in Horder
    as (Hlines & Haddr & Hpay & _ & _ & _ & Htotal & _ & _ & _ & _ & Hship
        & Hstatus & Huser & Hcid & _).
  apply mapM_validate_dump in Hlines.
  unfold create_document in Hcreate. injection Hcreate as <- <-.
  apply decrement_stock_Return in Hdec as (updates & Hupd & ->).
  eexists st, _, placed, c.
  split; [reflexivity|]. split; [reflexivity|].
  split; [reflexivity|]. split.
  { intros d Hd Heq. apply (fresh_id_fresh (stored_id <$> order st)).
    rewrite <- Heq. apply list_elem_of_fmap. exists d. split; [reflexivity|exact Hd]. }
  split; [rewrite Hresp; reflexivity|].
  split; [rewrite Hresp; reflexivity|].
  split.
  { unfold get_cart. rewrite Hoid. cbn [bind]. rewrite Hdocs. reflexivity. }
  split.
  { rewrite <- Hlines, <- Hitems.
    destruct (CartDoc.items c) as [its|]; [reflexivity|].
    simpl in Hitems. congruence. }
  repeat (split; [assumption || reflexivity|]).
  apply stock_loop_same_but_stock.
Qed.

End CheckoutOrder.

Section CheckoutAgain.
Variable regex_compile : string -> string -> option (string -> bool).

(** Checkout does not empty or mark the cart: the same request sent again
    right after a successful checkout succeeds again with the same total,
    stores the same order a second time under another id, and takes the
    quantities from the stock a second time. *)
Theorem checkout_twice (req : CheckoutRequest.t) (db : database)
    (resp : CheckoutResponse.t) (db' : database) :
  checkout regex_compile req db = (Return resp, db') ->
  exists (resp2 : CheckoutResponse.t) (st st'' : store) (placed : Order.t)
         (id1 id2 : ObjectId) (updates : list (ObjectId * Z)),
    db = Some st /\
    checkout regex_compile req db' = (Return resp2, Some st'') /\
    CheckoutResponse.amount_total resp2 = CheckoutResponse.amount_total resp /\
    order st'' = order st ++ [Stored id1 placed; Stored id2 placed] /\
    id1 <> id2 /\
    (forall oid : ObjectId,
        stock_of oid (product st'')
        = (fun s => s - 2 * ordered oid updates)
            <$> stock_of oid (product st)) /\
    exists c lines,
      get_cart regex_compile (CheckoutRequest.cart_id req) db = Return c /\
      CartDoc.items c = Some (dump_item <$> lines) /\
      mapM order_line lines = Some updates.
Proof.
  intros Hrun.
  apply checkout_Return in Hrun
    as (items & placed & order_id & db1 & Hord & Hcreate & Hdec & Hresp).
  pose proof Hord as Hsteps.
  apply checkout_order_Return in Hsteps
    as (oid & c & rest & ids & st & avg & Hoid & Hdocs & Hitems & Hne
        & Hids & -> & _ & _ & Horder).
  apply make_Order_lines in Horder as (lines & Hlines & _).
  apply mapM_validate_dump in Hlines.
  unfold create_document in Hcreate. injection Hcreate as <- <-.
  apply decrement_stock_Return in Hdec as (updates & Hupd & ->).
  set (st' := with_docs product_c
                (stock_loop updates
                   (product
                      (with_docs order_c
                         (docs order_c st
                          ++ [Stored (fresh_id (_id <$> docs order_c st)) placed])
                         st)))
                (with_docs order_c
                   (docs order_c st
                    ++ [Stored (fresh_id (_id <$> docs order_c st)) placed])
                   st)).
  assert (Hord' : checkout_order regex_compile req (Some st')
                  = Return (items, CheckoutResponse.amount_total resp, placed)).
  { rewrite <- Hord. apply checkout_order_same_but_stock; [reflexivity|].
    apply stock_loop_same_but_stock. }
  pose proof (checkout_of_order regex_compile req st' items
                (CheckoutResponse.amount_total resp) placed updates
                Hord' Hupd) as Hrun2.
  eexists _, st, _, placed, (fresh_id (stored_id <$> order st)),
          (fresh_id (stored_id <$> order st')), updates.
  split; [reflexivity|]. split; [exact Hrun2|].
  split; [reflexivity|]. split.
  { cbn [after_checkout order with_docs product_c order_c].
    subst st'. cbn [order with_docs product_c order_c docs].
    rewrite <- app_assoc. reflexivity. }
  split.
  { intros Heq.
    apply (fresh_id_fresh (stored_id <$> order st')).
    rewrite <- Heq. subst st'. cbn [order with_docs product_c order_c docs].
    rewrite fmap_app. apply elem_of_app. right. left. }
  split.
  { intros o. cbn [after_checkout product with_docs product_c order_c].
    subst st'. cbn [product with_docs product_c order_c].
    rewrite !stock_of_stock_loop.
    destruct (stock_of o (product st)) as [s|]; simpl; [|reflexivity].
    f_equal. lia. }
  exists c, lines. split.
  { unfold get_cart. rewrite Hoid. cbn [bind]. rewrite Hdocs. reflexivity. }
  split.
  { rewrite <- Hlines, <- Hitems.
    destruct (CartDoc.items c) as [its|]; [reflexivity|].
    simpl in Hitems. congruence. }
  rewrite <- mapM_loop_line_dump, <- Hlines. exact Hupd.
Qed.

End CheckoutAgain.

(** Two vases checked out twice from a stock of five: two orders, one vase
    left. *)
Lemma checkout_twice_witness :
  exists (db' db'' : database) (st'' : store),
    snd (checkout pcre_lite (Sample.request true false)
           (Sample.shop (Some [ItemDoc.mk "000000000000000000000001" (Some 2)])))
    = db' /\
    snd (checkout pcre_lite (Sample.request true false) db') = db'' /\
    db'' = Some st'' /\
    length (order st'') = 2%nat /\
    stock_of Sample.vase_id (product st'') = Some 1.
Proof.
  destruct (checkout_twice pcre_lite (Sample.request true false)
              (Sample.shop
                 (Some [ItemDoc.mk "000000000000000000000001" (Some 2)]))
              (CheckoutResponse.mk "000000000000000000000001"
                 (Py.Float 35.2) "created")
              (snd (checkout pcre_lite (Sample.request true false)
                      (Sample.shop
                         (Some [ItemDoc.mk "000000000000000000000001"
                                  (Some 2)]))))
              ltac:(vm_compute; reflexivity))
    as (resp2 & st & st'' & placed & id1 & id2 & updates & Hdb & Hrun2 & _
        & Horders & _ & Hstock & c & lines & Hcart & Hitems & Hupd).
  injection Hdb as <-.
  eexists _, _, st''. split; [reflexivity|].
  split; [rewrite Hrun2; reflexivity|]. split; [reflexivity|].
  split; [rewrite Horders; reflexivity|].
  vm_compute in Hcart. injection Hcart as <-.
  cbn [CartDoc.items] in Hitems.
  destruct lines as [|[pid q] [|l lines]]; try discriminate.
  injection Hitems as <- <-.
  vm_compute in Hupd. injection Hupd as <-.
  rewrite Hstock. reflexivity.
Defined.

(** The order the spec's example leaves behind. *)
Lemma checkout_places_order_witness :
  exists (st' : store) (placed : Order.t),
    snd (checkout pcre_lite (Sample.request true false)
           (Sample.shop (Some [ItemDoc.mk "000000000000000000000001" (Some 2)])))
    = Some st' /\
    order st' = [Stored 1%N placed] /\
    Order.items placed = [CartItem.mk "000000000000000000000001" 2] /\
    Order.amount_total placed = 35.2%float /\
    Order.cart_id placed = None /\
    cart st'
    = [CartDoc.mk Sample.cart_oid (Some "u1") None
         (Some [ItemDoc.mk "000000000000000000000001" (Some 2)])].
Proof.
  destruct (checkout_places_order pcre_lite (Sample.request true false)
              (Sample.shop
                 (Some [ItemDoc.mk "000000000000000000000001" (Some 2)]))
              (CheckoutResponse.mk "000000000000000000000001"
                 (Py.Float 35.2) "created")
              (snd (checkout pcre_lite (Sample.request true false)
                      (Sample.shop
                         (Some [ItemDoc.mk "000000000000000000000001"
                                  (Some 2)]))))
              ltac:(vm_compute; reflexivity))
    as (st & st' & placed & c & Hdb & Hdb' & Horder & _ & _ & _ & Hcart
        & Hitems & _ & _ & _ & Htotal & _ & _ & Hcid & Hcarts & _).
  injection Hdb as <-.
  exists st', placed. split; [exact Hdb'|]. split; [exact Horder|].
  vm_compute in Hcart. injection Hcart as <-.
  cbn [CartDoc.items] in Hitems.
  destruct (Order.items placed) as [|[pid q] [|l lines]]; try discriminate.
  injection Hitems as <- <-.
  split; [reflexivity|]. split; [exact Htotal|]. split; [exact Hcid|].
  exact Hcarts.
Defined.

(** ** Ids: printing and reading back *)

Lemma hex_digit_hex_char (d : N) :
  (d < 16)%N -> hex_digit (hex_char d) = Some d.
Proof.
  intros Hd.
  assert (Hcases : (d = 0 \/ d = 1 \/ d = 2 \/ d = 3 \/ d = 4 \/ d = 5
                    \/ d = 6 \/ d = 7 \/ d = 8 \/ d = 9 \/ d = 10 \/ d = 11
                    \/ d = 12 \/ d = 13 \/ d = 14 \/ d = 15)%N) by lia.
  repeat (destruct Hcases as [->|Hcases]; [reflexivity|]).
  subst d. reflexivity.
Qed.

Lemma length_hexlify (digits : nat) (n : N) (acc : string) :
  String.length (hexlify digits n acc) = (digits + String.length acc)%nat.
Proof.
  revert n acc. induction digits as [|k IH]; intros n acc; [reflexivity|].
  cbn [hexlify]. rewrite IH. simpl. lia.
Qed.

Lemma fromhex_hexlify (digits : nat) (n : N) (acc : string) (a : N) :
  fromhex (hexlify digits n acc) a
  = fromhex acc (a * 16 ^ N.of_nat digits + n mod 16 ^ N.of_nat digits)%N.
Proof.
  revert n acc a. induction digits as [|k IH]; intros n acc a.
  - cbn [hexlify]. f_equal. change (N.of_nat 0) with 0%N.
    rewrite N.pow_0_r, N.mod_1_r. lia.
  - cbn [hexlify]. rewrite IH. cbn [fromhex].
    rewrite hex_digit_hex_char by (apply N.mod_lt; discriminate).
    f_equal. rewrite Nat2N.inj_succ, N.pow_succ_r'.
    rewrite (N.Div0.mod_mul_r n 16 (16 ^ N.of_nat k)). lia.
Qed.

Lemma ObjectId_round_trip (oid : ObjectId) :
  (oid < 2 ^ 96)%N -> ObjectId_of_str (str_of_ObjectId oid) = Some oid.
Proof.
  intros Hlt. unfold ObjectId_of_str, str_of_ObjectId.
  rewrite length_hexlify. simpl Nat.eqb. cbv iota.
  rewrite fromhex_hexlify. cbn [fromhex]. f_equal.
  change (16 ^ N.of_nat 24)%N with (2 ^ 96)%N.
  rewrite N.mod_small by exact Hlt. lia.
Qed.

Lemma fresh_id_bound (ids : list ObjectId) (b : N) :
  (forall i, i ∈ ids -> (i < b)%N) -> (0 < b)%N -> (fresh_id ids <= b)%N.
Proof.
  intros Hall Hb. unfold fresh_id.
  assert (Hmax : (foldr N.max 0 ids < b)%N).
  { induction ids as [|i ids IH]; simpl; [exact Hb|].
    assert (Hi : (i < b)%N) by (apply Hall; left).
    assert (Hr : (foldr N.max 0 ids < b)%N)
      by (apply IH; intros j Hj; apply Hall; right; exact Hj).
    lia. }
  lia.
Qed.

Lemma filter_app_nil_l {A} (t : A -> bool) (l : list A) (x : A) :
  List.filter t l = [] -> t x = true -> List.filter t (l ++ [x]) = [x].
Proof.
  intros Hl Hx. rewrite List.filter_app, Hl. simpl. rewrite Hx. reflexivity.
Qed.

Section CartRoundTrip.
Variable regex_compile : string -> string -> option (string -> bool).

(** A cart created by [init_cart] can be fetched with the id that was
    returned: [get_cart] gives the cart with the user, the session and the
    items of the body; and every cart that could be fetched before is still
    fetched as before.  (The stored cart ids are 12-byte values, with room
    for one more.) *)
Theorem init_cart_get_cart (body : Cart.t) (st : store) :
  (forall c, c ∈ cart st -> (CartDoc._id c < 2 ^ 96 - 1)%N) ->
  exists (new_id : string) (oid : ObjectId) (st' : store),
    init_cart body (Some st) = (Return new_id, Some st') /\
    get_cart regex_compile new_id (Some st')
    = Return (CartDoc.mk oid (Cart.user_id body) (Cart.session_id body)
                (Some (dump_item <$> Cart.items body))) /\
    (forall c, c ∈ cart st -> CartDoc._id c <> oid) /\
    (forall cart_id c,
        get_cart regex_compile cart_id (Some st) = Return c ->
        get_cart regex_compile cart_id (Some st') = Return c).
Proof.
  intros Hbound.
  set (oid := fresh_id (_id <$> cart st)).
  assert (Hfresh : forall c, c ∈ cart st -> CartDoc._id c <> oid).
  { intros c Hc Heq. apply (fresh_id_fresh (_id <$> cart st)).
    fold oid. rewrite <- Heq. apply list_elem_of_fmap.
    exists c. split; [reflexivity|exact Hc]. }
  assert (Hlt : (oid < 2 ^ 96)%N).
  { assert (Hle : (oid <= 2 ^ 96 - 1)%N).
    { apply fresh_id_bound; [|reflexivity].
      intros i Hi. apply list_elem_of_fmap in Hi as (c & -> & Hc).
      apply Hbound. exact Hc. }
    assert (Hpos : (0 < 2 ^ 96)%N) by reflexivity. lia. }
  eexists (str_of_ObjectId oid), oid, _.
  split; [reflexivity|]. split; [|split; [exact Hfresh|]].
  - unfold get_cart, to_obj_id. rewrite (ObjectId_round_trip oid Hlt).
    cbn [bind].
    rewrite (get_documents_by_id regex_compile cart_c oid).
    cbn [docs cart_c with_docs cart].
    rewrite filter_app_nil_l.
    + reflexivity.
    + apply filter_nil_iff. intros c Hc. unfold has_id.
      apply N.eqb_neq. apply Hfresh. exact Hc.
    + unfold has_id. apply N.eqb_refl.
  - intros cart_id c Hget. unfold get_cart in *.
    destruct (to_obj_id cart_id) as [o| |]; try discriminate.
    cbn [bind] in *.
    rewrite (get_documents_by_id regex_compile cart_c o) in *.
    cbn [docs cart_c with_docs cart] in *.
    rewrite List.filter_app.
    destruct (List.filter (has_id o) (cart st)) as [|c0 rest];
      [discriminate|].
    exact Hget.
Qed.

End CartRoundTrip.

Lemma init_cart_get_cart_witness :
  exists (new_id : string) (oid : ObjectId) (st' : store),
    init_cart (Cart.mk None (Some "s-42")
                 [CartItem.mk "000000000000000000000002" 1])
      (Sample.shop None)
    = (Return new_id, Some st') /\
    get_cart pcre_lite new_id (Some st')
    = Return (CartDoc.mk oid None (Some "s-42")
                (Some [ItemDoc.mk "000000000000000000000002" (Some 1)])).
Proof.
  destruct (init_cart_get_cart pcre_lite
              (Cart.mk None (Some "s-42")
                 [CartItem.mk "000000000000000000000002" 1])
              (Store [] [Sample.vase; Sample.bowl] []
                 [CartDoc.mk Sample.cart_oid (Some "u1") None None] [] [] [] []))
    as (new_id & oid & st' & Hinit & Hget & _).
  - intros c Hc. apply elem_of_cons in Hc as [->|Hc]; [reflexivity|].
    inversion Hc.
  - exists new_id, oid, st'. split; [exact Hinit|exact Hget].
Defined.

(** ** Ids: letter case *)

Lemma hex_digit_lower (c : ascii) : hex_digit (lower c) = hex_digit c.
Proof.
  destruct c as [b0 b1 b2 b3 b4 b5 b6 b7].
  destruct b0, b1, b2, b3, b4, b5, b6, b7; reflexivity.
Qed.

Lemma fromhex_lower (s : string) (a : N) :
  fromhex (lower_string s) a = fromhex s a.
Proof.
  revert a. induction s as [|c s IH]; intros a; [reflexivity|].
  rewrite lower_string_cons. cbn [fromhex]. rewrite hex_digit_lower.
  destruct (hex_digit c); [apply IH|reflexivity].
Qed.

Lemma length_lower_string (s : string) :
  String.length (lower_string s) = String.length s.
Proof.
  induction s as [|c s IH]; [reflexivity|].
  rewrite lower_string_cons. simpl. rewrite IH. reflexivity.
Qed.

Lemma ObjectId_of_str_lower (s : string) :
  ObjectId_of_str (lower_string s) = ObjectId_of_str s.
Proof.
  unfold ObjectId_of_str. rewrite length_lower_string, fromhex_lower.
  reflexivity.
Qed.

Lemma ObjectId_of_str_case (s s' : string) :
  lower_string s = lower_string s' -> ObjectId_of_str s = ObjectId_of_str s'.
Proof.
  intros Heq. rewrite <- (ObjectId_of_str_lower s), Heq.
  apply ObjectId_of_str_lower.
Qed.

Section IdCase.
Variable regex_compile : string -> string -> option (string -> bool).

(** Cart ids are read without regard to letter case: two id strings that
    differ in letter case only get the same answer, and leave the same
    store, from [get_cart], [update_cart] and [checkout]. *)
Theorem cart_id_case_insensitive (cart_id cart_id' : string) :
  lower_string cart_id = lower_string cart_id' ->
  (forall db,
      get_cart regex_compile cart_id db = get_cart regex_compile cart_id' db)
  /\ (forall items db,
         update_cart regex_compile cart_id items db
         = update_cart regex_compile cart_id' items db)
  /\ (forall address payment insured premium db,
         checkout regex_compile
           (CheckoutRequest.mk cart_id address payment insured premium) db
         = checkout regex_compile
             (CheckoutRequest.mk cart_id' address payment insured premium) db).
Proof.
  intros Hcase. apply ObjectId_of_str_case in Hcase.
  assert (Hid : to_obj_id cart_id = to_obj_id cart_id')
    by (unfold to_obj_id; rewrite Hcase; reflexivity).
  split; [|split].
  - intros db. unfold get_cart. rewrite Hid. reflexivity.
  - intros items db. unfold update_cart. rewrite Hid. reflexivity.
  - intros address payment insured premium db.
    unfold checkout, checkout_order. cbn [CheckoutRequest.cart_id].
    rewrite Hid. reflexivity.
Qed.

End IdCase.

Lemma cart_id_case_insensitive_witness :
  get_cart pcre_lite "0000000000000000000000AB"
    (Some (Store [] [] [] [CartDoc.mk 171%N None None (Some [])] [] [] [] []))
  = get_cart pcre_lite "0000000000000000000000ab"
      (Some (Store [] [] [] [CartDoc.mk 171%N None None (Some [])] [] [] [] [])).
Proof.
  exact (proj1 (cart_id_case_insensitive pcre_lite
                  "0000000000000000000000AB" "0000000000000000000000ab"
                  eq_refl) _).
Defined.

(** ** Cart update: the last write wins *)

Lemma update_first_twice {D} (t : D -> bool) (upd1 upd2 : D -> D)
    (ds : list D) :
  (forall d, t (upd1 d) = t d) ->
  update_first t upd2 (fst (update_first t upd1 ds))
  = update_first t (fun d => upd2 (upd1 d)) ds.
Proof.
  intros Ht. induction ds as [|d ds IH]; [reflexivity|].
  simpl. destruct (t d) eqn:Hd.
  - simpl. rewrite Ht, Hd. reflexivity.
  - destruct (update_first t upd1 ds) as [r n] eqn:Hu. simpl in *.
    rewrite Hd, IH. reflexivity.
Qed.

Section CartOverwrite.
Variable regex_compile : string -> string -> option (string -> bool).

(** An update of a cart overwrites the one before it: after a successful
    [update_cart] with items [a], an [update_cart] of the same id with items
    [b] answers and leaves the store exactly as it would have without the
    first update; in particular repeating an update changes nothing. *)
Theorem update_cart_last_write_wins (cart_id : string)
    (a b : list CartItem.t) (db db1 : database) :
  update_cart regex_compile cart_id a db = (Return true, db1) ->
  update_cart regex_compile cart_id b db1
  = update_cart regex_compile cart_id b db
  /\ update_cart regex_compile cart_id a db1 = (Return true, db1).
Proof.
  intros Hfirst.
  assert (Hlast : forall b',
             update_cart regex_compile cart_id b' db1
             = update_cart regex_compile cart_id b' db).
  { intros b'. destruct db as [st|]; [|discriminate].
    destruct (ObjectId_of_str cart_id) as [oid|] eqn:Hoid.
    2:{ unfold update_cart, to_obj_id in Hfirst. rewrite Hoid in Hfirst.
        discriminate. }
    rewrite (update_cart_Some _ _ _ _ _ Hoid) in Hfirst.
    destruct (update_first (has_id oid) (set_items (dump_item <$> a)) (cart st))
      as [ds n] eqn:Hu.
    assert (Hdb1 : db1 = Some (with_docs cart_c ds st))
      by (destruct (n =? 0); [discriminate|];
          injection Hfirst as <-; reflexivity).
    subst db1. rewrite !(update_cart_Some _ _ _ _ _ Hoid).
    cbn [cart with_docs cart_c].
    replace ds
      with (fst (update_first (has_id oid) (set_items (dump_item <$> a))
                   (cart st))) by (rewrite Hu; reflexivity).
    rewrite update_first_twice by reflexivity.
    destruct (update_first (has_id oid) _ (cart st)) as [ds2 n2].
    reflexivity. }
  split; [apply Hlast|]. rewrite Hlast. exact Hfirst.
Qed.

End CartOverwrite.

Lemma update_cart_last_write_wins_witness :
  update_cart pcre_lite "000000000000000000000010"
    [CartItem.mk "000000000000000000000002" 3]
    (snd (update_cart pcre_lite "000000000000000000000010"
            [CartItem.mk "000000000000000000000001" 9] (Sample.shop None)))
  = update_cart pcre_lite "000000000000000000000010"
      [CartItem.mk "000000000000000000000002" 3] (Sample.shop None).
Proof.
  exact (proj1 (update_cart_last_write_wins pcre_lite
                  "000000000000000000000010"
                  [CartItem.mk "000000000000000000000001" 9]
                  [CartItem.mk "000000000000000000000002" 3]
                  (Sample.shop None)
                  (snd (update_cart pcre_lite "000000000000000000000010"
                          [CartItem.mk "000000000000000000000001" 9]
                          (Sample.shop None)))
                  eq_refl)).
Defined.

(** ** The product page and its reviews *)

Section ProductPage.
Variable regex_compile : string -> string -> option (string -> bool).

Lemma find_by_slug (ps : list ProductDoc.t) (slug : string) :
  find regex_compile ps [Field "slug" (Eq_ (BString slug))]
  = Return (List.filter (has_slug slug) ps).
Proof.
  unfold find. simpl. f_equal. apply filter_ext_eq. intros p.
  unfold compile_field; simpl. apply andb_true_r.
Qed.

Lemma find_reviews_of (rs : list (stored Review.t)) (product_id : string) :
  find regex_compile rs [Field "product_id" (Eq_ (BString product_id))]
  = Return (List.filter (review_of product_id) rs).
Proof.
  unfold find. simpl. f_equal. apply filter_ext_eq. intros d.
  unfold compile_field; simpl. apply andb_true_r.
Qed.

(** The product page on a connected store: the first product with the slug
    and the reviews that name its printed id, or 404. *)
Lemma get_product_by_slug_Some (slug : string) (st : store) :
  get_product_by_slug regex_compile slug (Some st)
  = match List.filter (has_slug slug) (product st) with
    | [] => HTTPException 404 "Not found"
    | p :: _ =>
        Return (ProductDetail.mk p
                  (List.filter (review_of (str_of_ObjectId (ProductDoc._id p)))
                     (review st)))
    end.
Proof.
  unfold get_product_by_slug, get_documents.
  rewrite find_by_slug. cbn [bind docs product_c].
  destruct (List.filter (has_slug slug) (product st)) as [|p rest];
    [reflexivity|].
  cbn [take]. rewrite find_reviews_of. reflexivity.
Qed.

Lemma add_review_found (r : Review.t) (st : store) (p : ProductDoc.t) :
  p ∈ product st ->
  ObjectId_of_str (Review.product_id r) = Some (ProductDoc._id p) ->
  add_review regex_compile r (Some st)
  = (Return (str_of_ObjectId (fresh_id (stored_id <$> review st))),
     Some (with_docs review_c
             (review st ++ [Stored (fresh_id (stored_id <$> review st)) r])
             st)).
Proof.
  intros Hp Hoid. unfold add_review. rewrite Hoid. cbn [or_raise bind].
  rewrite (get_documents_by_id regex_compile product_c (ProductDoc._id p) st).
  change (docs product_c st) with (product st).
  destruct (filter_cons_iff (has_id (ProductDoc._id p)) (product st))
    as (a & rest & Hf & _).
  { exists p. split; [exact Hp|]. unfold has_id. apply N.eqb_refl. }
  rewrite Hf. reflexivity.
Qed.

(** A review posted with the printed id of a product appears on the
    product's page, after the reviews that were there. *)
Theorem add_review_listed (r : Review.t) (st : store) (slug : string)
    (p : ProductDoc.t) (old : list (stored Review.t)) :
  get_product_by_slug regex_compile slug (Some st)
  = Return (ProductDetail.mk p old) ->
  Review.product_id r = str_of_ObjectId (ProductDoc._id p) ->
  (ProductDoc._id p < 2 ^ 96)%N ->
  exists (new_id : string) (oid : ObjectId) (st' : store),
    add_review regex_compile r (Some st) = (Return new_id, Some st') /\
    get_product_by_slug regex_compile slug (Some st')
    = Return (ProductDetail.mk p (old ++ [Stored oid r])).
Proof.
  intros Hpage Hid Hlt.
  rewrite get_product_by_slug_Some in Hpage.
  destruct (List.filter (has_slug slug) (product st)) as [|p0 rest] eqn:Hf;
    [discriminate|].
  injection Hpage as -> <-.
  assert (Hp : p ∈ product st).
  { apply list_elem_of_In.
    assert (Hin : In p (List.filter (has_slug slug) (product st)))
      by (rewrite Hf; left; reflexivity).
    apply filter_In in Hin. apply Hin. }
  assert (Hoid : ObjectId_of_str (Review.product_id r)
                 = Some (ProductDoc._id p))
    by (rewrite Hid; apply ObjectId_round_trip; exact Hlt).
  eexists _, (fresh_id (stored_id <$> review st)), _.
  split; [apply (add_review_found r st p Hp Hoid)|].
  rewrite get_product_by_slug_Some.
  cbn [product review with_docs review_c]. rewrite Hf.
  rewrite List.filter_app. cbn [List.filter]. unfold review_of at 2.
  cbn [body]. rewrite Hid, String.eqb_refl. reflexivity.
Qed.

(** A review whose [product_id] spells the id of an existing product with
    a hexadecimal letter in upper case is accepted and stored, and is then
    on no product page: a page lists the reviews that name the product's
    id as printed, in lower case. *)
Theorem review_upper_case_unlisted (r : Review.t) (st : store)
    (p : ProductDoc.t) :
  p ∈ product st ->
  ObjectId_of_str (Review.product_id r) = Some (ProductDoc._id p) ->
  has_upper_hex (Review.product_id r) = true ->
  exists (new_id : string) (oid : ObjectId) (st' : store),
    add_review regex_compile r (Some st) = (Return new_id, Some st') /\
    Stored oid r ∈ review st' /\
    forall slug detail,
      get_product_by_slug regex_compile slug (Some st') = Return detail ->
      forall d, d ∈ ProductDetail.reviews detail ->
                Review.product_id (body d) <> Review.product_id r.
Proof.
  intros Hp Hoid Hup.
  eexists _, (fresh_id (stored_id <$> review st)), _.
  split; [apply (add_review_found r st p Hp Hoid)|]. split.
  - cbn [review with_docs review_c]. apply elem_of_app. right. left.
  - intros slug detail Hpage d Hd Heq.
    rewrite get_product_by_slug_Some in Hpage.
    destruct (List.filter (has_slug slug) _) as [|p0 rest]; [discriminate|].
    injection Hpage as <-. cbn [ProductDetail.reviews] in Hd.
    apply list_elem_of_In, filter_In in Hd as [_ Hd].
    unfold review_of in Hd. apply String.eqb_eq in Hd.
    rewrite <- Heq, Hd, str_of_ObjectId_lower in Hup. discriminate.
Qed.

End ProductPage.

Lemma add_review_listed_witness :
  exists (new_id : string) (oid : ObjectId) (st' : store),
    add_review pcre_lite
      (Review.mk "000000000000000000000002" "Ada" 5 None) (Sample.shop None)
    = (Return new_id, Some st') /\
    get_product_by_slug pcre_lite "bowl" (Some st')
    = Return (ProductDetail.mk Sample.bowl
                [Stored oid (Review.mk "000000000000000000000002" "Ada" 5
                               None)]).
Proof.
  exact (add_review_listed pcre_lite
           (Review.mk "000000000000000000000002" "Ada" 5 None)
           (Store [] [Sample.vase; Sample.bowl] []
              [CartDoc.mk Sample.cart_oid (Some "u1") None None] [] [] [] [])
           "bowl" Sample.bowl [] eq_refl eq_refl eq_refl).
Defined.

(** A review of the product with id ...0b, posted with the id written
    "...0B", is stored and the page of the product does not list it. *)
Lemma review_upper_case_unlisted_witness :
  exists (st' : store),
    snd (add_review pcre_lite
           (Review.mk "00000000000000000000000B" "Ada" 5 None)
           (Some (Store []
                    [ProductDoc.mk 11%N "Board" "board" "Oak" 30.0 "kitchen" 4
                       (Some 2) None true [] None] [] [] [] [] [] [])))
    = Some st' /\
    length (review st') = 1%nat /\
    get_product_by_slug pcre_lite "board" (Some st')
    = Return (ProductDetail.mk
                (ProductDoc.mk 11%N "Board" "board" "Oak" 30.0 "kitchen" 4
                   (Some 2) None true [] None) []).
Proof.
  destruct (review_upper_case_unlisted pcre_lite
              (Review.mk "00000000000000000000000B" "Ada" 5 None)
              (Store []
                 [ProductDoc.mk 11%N "Board" "board" "Oak" 30.0 "kitchen" 4
                    (Some 2) None true [] None] [] [] [] [] [] [])
              (ProductDoc.mk 11%N "Board" "board" "Oak" 30.0 "kitchen" 4
                 (Some 2) None true [] None)
              ltac:(left) eq_refl eq_refl)
    as (new_id & oid & st' & Hadd & _ & _).
  exists st'. rewrite Hadd. split; [reflexivity|].
  injection Hadd as _ <-. split; reflexivity.
Defined.

(** ** Product listing: the edges *)

Lemma validate_dump_Product (p : Product.t) (oid : ObjectId) :
  validate_Product (dump_Product p oid)
  = if valid_Product p then Some p else None.
Proof.
  unfold validate_Product, dump_Product, valid_Product. simpl.
  destruct (_ && _); [|reflexivity]. destruct p; reflexivity.
Qed.

Lemma filter_all {A} (t : A -> bool) (l : list A) :
  (forall a, t a = true) -> List.filter t l = l.
Proof.
  intros Hall. induction l as [|a l IH]; [reflexivity|].
  simpl. rewrite Hall, IH. reflexivity.
Qed.

Section Listing.
Variable regex_compile : string -> string -> option (string -> bool).

Lemma list_products_no_query (category : option string) (st : store) :
  list_products regex_compile category None (Some st)
  = Return (List.filter (in_category category) (product st)).
Proof.
  unfold list_products, get_documents, find.
  change (docs product_c st) with (product st).
  destruct category as [[|b c]|]; simpl; f_equal;
    apply filter_ext_eq; intros p; unfold compile_field; simpl;
    rewrite ?andb_true_r; reflexivity.
Qed.

(** Without a query, or with an empty one, the store's engine is not
    consulted: whatever the engine, the listing succeeds on a connected
    store with the products of the category in stored order, and with all
    products when the category is absent or empty too. *)
Theorem list_products_without_query (category q : option string)
    (st : store) :
  q = None \/ q = Some EmptyString ->
  list_products regex_compile category q (Some st)
  = Return (List.filter (in_category category) (product st))
  /\ (category = None \/ category = Some EmptyString ->
      list_products regex_compile category q (Some st) = Return (product st)).
Proof.
  intros Hq.
  assert (Hsame : list_products regex_compile category q (Some st)
                  = list_products regex_compile category None (Some st))
    by (destruct Hq as [->| ->]; reflexivity).
  rewrite Hsame, list_products_no_query. split; [reflexivity|].
  intros Hc. f_equal. apply filter_all.
  intros p. destruct Hc as [->| ->]; reflexivity.
Qed.

(** A non-empty query that the store's engine rejects as a pattern makes
    the listing end in an unhandled OperationFailure (a status 500),
    whatever the category and whatever the store holds. *)
Theorem list_products_rejected_pattern (category : option string)
    (q : string) (st : store) :
  q <> EmptyString ->
  regex_compile q "i" = None ->
  list_products regex_compile category (Some q) (Some st)
  = Raise OperationFailure.
Proof.
  intros Hq Hrej. destruct q as [|a q']; [contradiction|].
  unfold list_products, get_documents, find.
  destruct category as [[|b c]|]; cbn [app compile_filter compile_clause];
    cbn [compile_or compile_fields]; unfold compile_field, compile_cond;
    rewrite Hrej; reflexivity.
Qed.

(** The route validates every listed product against the Product schema:
    when the handler's result holds a product whose stored stock is
    negative (as an oversold product's is), the request fails as a whole
    with a response validation error, also for the products in order. *)
Theorem listing_fails_on_negative_stock (category q : option string)
    (db : database) (ds : list ProductDoc.t) :
  list_products regex_compile category q db = Return ds ->
  (exists p, p ∈ ds /\ ProductDoc.stock p < 0) ->
  GET_api_products regex_compile category q db
  = Raise ResponseValidationError.
Proof.
  intros Hlist (p & Hp & Hneg). unfold GET_api_products.
  rewrite Hlist. cbn [bind].
  rewrite (mapM_fails validate_Product ds); [reflexivity|].
  exists p. split; [exact Hp|]. unfold validate_Product.
  destruct (ProductDoc.fragility_rating p) as [f|]; [|reflexivity]. simpl.
  replace (0 <=? ProductDoc.stock p) with false
    by (symmetry; apply Z.leb_gt; exact Hneg).
  rewrite andb_false_r. reflexivity.
Qed.

(** A product that satisfies the schema (price and stock at least 0,
    fragility from 1 to 5) and is created with [create_product] is listed
    last by the unfiltered listing, and the route's validation gives the
    product back as it was created. *)
Theorem create_product_listed (p : Product.t) (st : store) :
  valid_Product p = true ->
  exists (new_id : string) (oid : ObjectId) (st' : store),
    create_product p (Some st) = (Return new_id, Some st') /\
    new_id = str_of_ObjectId oid /\
    (forall d, d ∈ product st -> ProductDoc._id d <> oid) /\
    list_products regex_compile None None (Some st')
    = Return (product st ++ [dump_Product p oid]) /\
    validate_Product (dump_Product p oid) = Some p.
Proof.
  intros Hvalid.
  eexists _, (fresh_id (_id <$> product st)), _.
  split; [reflexivity|]. split; [reflexivity|]. split; [|split].
  - intros d Hd Heq. apply (fresh_id_fresh (_id <$> product st)).
    rewrite <- Heq. apply list_elem_of_fmap.
    exists d. split; [reflexivity|exact Hd].
  - rewrite list_products_no_query. cbn [in_category].
    rewrite filter_all by reflexivity. reflexivity.
  - rewrite validate_dump_Product, Hvalid. reflexivity.
Qed.

End Listing.

Lemma list_products_without_query_witness :
  list_products pcre_lite (Some "kitchen") (Some "") (Sample.shop None)
  = Return [Sample.bowl].
Proof.
  exact (proj1 (list_products_without_query pcre_lite (Some "kitchen")
                  (Some EmptyString)
                  (Store [] [Sample.vase; Sample.bowl] []
                     [CartDoc.mk Sample.cart_oid (Some "u1") None None]
                     [] [] [] [])
                  (or_intror eq_refl))).
Defined.

(** An unbalanced parenthesis is no pattern. *)
Lemma list_products_rejected_pattern_witness :
  list_products pcre_lite None (Some "vase (blue") (Sample.shop None)
  = Raise OperationFailure.
Proof.
  exact (list_products_rejected_pattern pcre_lite None "vase (blue"
           (Store [] [Sample.vase; Sample.bowl] []
              [CartDoc.mk Sample.cart_oid (Some "u1") None None] [] [] [] [])
           ltac:(discriminate) eq_refl).
Defined.

(** After a hundred vases were ordered from a stock of five, the
    unfiltered product listing fails. *)
Lemma listing_fails_on_negative_stock_witness :
  GET_api_products pcre_lite None None
    (snd (checkout pcre_lite (Sample.request true false)
            (Sample.shop
               (Some [ItemDoc.mk "000000000000000000000001" (Some 100)]))))
  = Raise ResponseValidationError.
Proof.
  apply (listing_fails_on_negative_stock pcre_lite None None _
           [ProductDoc.mk Sample.vase_id "Blue vase" "blue-vase"
              "Hand-blown Glass" 10.0 "vases" (-95) (Some 3) None true [] None;
            Sample.bowl]).
  - vm_compute. reflexivity.
  - eexists. split; [left|]. simpl. lia.
Defined.

Lemma create_product_listed_witness :
  exists (new_id : string) (oid : ObjectId) (st' : store),
    create_product
      (Product.mk "Lamp" "lamp" "Paper shade" 55.0 "lighting" 3 4 None true []
         None)
      (Sample.shop None)
    = (Return new_id, Some st') /\
    list_products pcre_lite None None (Some st')
    = Return [Sample.vase; Sample.bowl;
              dump_Product
                (Product.mk "Lamp" "lamp" "Paper shade" 55.0 "lighting" 3 4
                   None true [] None) oid].
Proof.
  destruct (create_product_listed pcre_lite
              (Product.mk "Lamp" "lamp" "Paper shade" 55.0 "lighting" 3 4 None
                 true [] None)
              (Store [] [Sample.vase; Sample.bowl] []
                 [CartDoc.mk Sample.cart_oid (Some "u1") None None] [] [] [] [])
              eq_refl)
    as (new_id & oid & st' & Hcreate & _ & _ & Hlist & _).
  exists new_id, oid, st'. split; [exact Hcreate|exact Hlist].
Defined.

(** ** Notifications *)

Section Notifications.
Variable regex_compile : string -> string -> option (string -> bool).

Lemma get_notifications_Some (user_id : string) (st : store) :
  get_notifications regex_compile user_id (Some st)
  = Return (List.filter (addressed_to user_id) (notification st)).
Proof.
  unfold get_notifications, get_documents, find. simpl. f_equal.
  apply filter_ext_eq. intros d. unfold compile_field; simpl.
  apply andb_true_r.
Qed.

(** A notification created for a user is the last of the notifications
    that user gets, after those the user had; what any other user gets is
    unchanged.  A user's notifications are those stored with exactly that
    [user_id]. *)
Theorem create_notification_delivered (note : Notification.t) (st : store) :
  exists (new_id : string) (oid : ObjectId) (st' : store),
    create_notification note (Some st) = (Return new_id, Some st') /\
    (forall d, d ∈ notification st -> stored_id d <> oid) /\
    forall user_id : string,
      get_notifications regex_compile user_id (Some st')
      = Return
          (List.filter (addressed_to user_id) (notification st)
           ++ (if String.eqb (Notification.user_id note) user_id
               then [Stored oid note] else [])).
Proof.
  eexists _, (fresh_id (stored_id <$> notification st)), _.
  split; [reflexivity|]. split.
  - intros d Hd Heq. apply (fresh_id_fresh (stored_id <$> notification st)).
    rewrite <- Heq. apply list_elem_of_fmap.
    exists d. split; [reflexivity|exact Hd].
  - intros user_id. rewrite get_notifications_Some.
    cbn [notification with_docs notification_c docs].
    rewrite List.filter_app. reflexivity.
Qed.

End Notifications.

(** ** Checkout: the address and the payment are validated last *)

Lemma validate_Address_missing (d : gmap string json) (k : string) :
  k ∈ Address_required -> required_str d k = None -> validate_Address d = None.
Proof.
  unfold Address_required, validate_Address. intros Hk Hnone.
  repeat (apply elem_of_cons in Hk as [->|Hk]);
    [| | | | |inversion Hk];
    repeat (match goal with
            | |- context [required_str d ?key] =>
                destruct (required_str d key); simpl; try discriminate;
                try reflexivity
            | |- context [optional_str d ?key] =>
                destruct (optional_str d key); simpl; try reflexivity
            end).
Qed.

Lemma validate_PaymentMethod_unlisted (d : gmap string json) :
  (forall m, required_str d "method" = Some m -> validate_method m = None) ->
  validate_PaymentMethod d = None.
Proof.
  unfold validate_PaymentMethod. intros Hm.
  destruct (required_str d "method") as [m|]; [|reflexivity]. simpl.
  rewrite (Hm m eq_refl). reflexivity.
Qed.

Section CheckoutAddress.
Variable regex_compile : string -> string -> option (string -> bool).

(** The shipping address and the payment of a checkout request are plain
    dicts until the order is built: a request whose address lacks a
    required key (or holds a non-string there), or whose payment method is
    absent or not one of the five the schema lists, is priced like any
    other and then ends in a pydantic ValidationError (a status 500), with
    nothing written. *)
Theorem checkout_invalid_address (req : CheckoutRequest.t) (db : database)
    (cart : CartDoc.t) (items : list ItemDoc.t) (ids : list ObjectId) :
  get_cart regex_compile (CheckoutRequest.cart_id req) db = Return cart ->
  CartDoc.items cart = Some items ->
  items <> [] ->
  for_each parse_line items = Return ids ->
  (exists k, k ∈ Address_required /\
             required_str (CheckoutRequest.shipping_address req) k = None)
  \/ (forall m, required_str (CheckoutRequest.payment req) "method" = Some m ->
                validate_method m = None) ->
  checkout regex_compile req db = (Raise ValidationError, db).
Proof.
  intros Hcart Hitems Hne Hids Hbad.
  apply get_cart_Return in Hcart as (oid & rest & Hoid & Hdocs).
  destruct db as [st|]; [|discriminate].
  unfold checkout, checkout_order. rewrite Hoid. cbn [bind].
  rewrite Hdocs. cbn [bind]. rewrite Hitems.
  change (default [] (Some items)) with items.
  destruct items as [|i items]; [contradiction|].
  change (for_each _ (i :: items)) with (for_each parse_line (i :: items)).
  rewrite Hids. cbn [bind db_docs].
  rewrite find_id_in. cbn [bind].
  destruct (avg_fragility_defined
              (fragility_map (List.filter (id_in ids) (docs product_c st)))
              (i :: items) Hne) as (avg & Havg).
  rewrite Havg. cbn [or_raise bind].
  unfold make_Order.
  destruct (mapM validate_CartItem (i :: items)) as [lines|];
    [|reflexivity].
  simpl.
  destruct Hbad as [(k & Hk & Hmissing)|Hmethod].
  - rewrite (validate_Address_missing _ k Hk Hmissing). reflexivity.
  - rewrite (validate_PaymentMethod_unlisted _ Hmethod).
    destruct (validate_Address _); reflexivity.
Qed.

End CheckoutAddress.

(** An address without a city. *)
Lemma checkout_invalid_address_witness :
  checkout pcre_lite
    (CheckoutRequest.mk "000000000000000000000010"
       {[ "full_name" := JString "Ada L"; "line1" := JString "1 Main St";
          "postal_code" := JString "75001"; "country" := JString "FR" ]}
       Sample.payment true false)
    (Sample.shop (Some [ItemDoc.mk "000000000000000000000001" (Some 2)]))
  = (Raise ValidationError,
     Sample.shop (Some [ItemDoc.mk "000000000000000000000001" (Some 2)])).
Proof.
  apply (checkout_invalid_address pcre_lite
           (CheckoutRequest.mk "000000000000000000000010"
              {[ "full_name" := JString "Ada L"; "line1" := JString "1 Main St";
                 "postal_code" := JString "75001"; "country" := JString "FR" ]}
              Sample.payment true false)
           (Sample.shop (Some [ItemDoc.mk "000000000000000000000001" (Some 2)]))
           (CartDoc.mk Sample.cart_oid (Some "u1") None
              (Some [ItemDoc.mk "000000000000000000000001" (Some 2)]))
           [ItemDoc.mk "000000000000000000000001" (Some 2)] [1%N]
           eq_refl eq_refl ltac:(discriminate) eq_refl).
  left. exists "city"%string. split; [|reflexivity].
  right. right. left.
Defined.

(** ** Checkout: the products no line names, and the cart just written *)

Lemma update_first_other (o : ObjectId) (f : ProductDoc.t -> ProductDoc.t)
    (ps : list ProductDoc.t) (i : nat) (p : ProductDoc.t) :
  ProductDoc._id p <> o ->
  ps !! i = Some p ->
  fst (update_first (has_id o) f ps) !! i = Some p.
Proof.
  intros Hne. revert i. induction ps as [|a ps IH]; intros i Hi;
    [discriminate|].
  simpl. destruct (has_id o a) eqn:Ha.
  - destruct i as [|i]; [|exact Hi].
    simpl in Hi. injection Hi as ->. unfold has_id in Ha.
    apply N.eqb_eq in Ha. contradiction.
  - destruct (update_first (has_id o) f ps) as [r n]. simpl in *.
    destruct i as [|i]; [exact Hi|]. apply IH. exact Hi.
Qed.

Lemma stock_loop_other (lines : list (ObjectId * Z)) (ps : list ProductDoc.t)
    (i : nat) (p : ProductDoc.t) :
  (forall l, l ∈ lines -> fst l <> ProductDoc._id p) ->
  ps !! i = Some p ->
  stock_loop lines ps !! i = Some p.
Proof.
  revert ps. induction lines as [|[o q] lines IH]; intros ps Hall Hi;
    [exact Hi|].
  cbn [stock_loop]. apply IH.
  - intros l Hl. apply Hall. right. exact Hl.
  - apply update_first_other; [|exact Hi].
    intros Heq. apply (Hall (o, q)); [left|]. symmetry. exact Heq.
Qed.

Lemma order_line_ids (lines : list CartItem.t) (updates : list (ObjectId * Z)) :
  mapM order_line lines = Some updates ->
  forall u, u ∈ updates ->
            exists l, l ∈ lines
                      /\ ObjectId_of_str (CartItem.product_id l) = Some (fst u).
Proof.
  revert updates. induction lines as [|l lines IH]; intros updates Hm u Hu.
  - change (Some [] = Some updates) in Hm. injection Hm as <-. inversion Hu.
  - apply mapM_cons_Some in Hm as (y & ys & Hy & Hys & ->).
    apply elem_of_cons in Hu as [->|Hu].
    + exists l. split; [left|]. unfold order_line in Hy.
      destruct (ObjectId_of_str (CartItem.product_id l)) as [o|];
        [|discriminate].
      simpl in Hy. injection Hy as <-. reflexivity.
    + destruct (IH ys Hys u Hu) as (l' & Hl' & Hid).
      exists l'. split; [right; exact Hl'|exact Hid].
Qed.

Lemma dump_item_inj (a b : list CartItem.t) :
  dump_item <$> a = dump_item <$> b -> a = b.
Proof.
  revert b. induction a as [|x a IH]; intros [|y b] Heq; try discriminate;
    [reflexivity|].
  rewrite !fmap_cons in Heq. injection Heq as Hp Hq Hrest.
  destruct x, y; simpl in *. subst. f_equal. apply IH. exact Hrest.
Qed.

Section CheckoutFrame.
Variable regex_compile : string -> string -> option (string -> bool).

(** A successful checkout leaves every product that no cart line names
    exactly as it was stored, at its place in the collection. *)
Theorem checkout_untouched_products (req : CheckoutRequest.t) (db : database)
    (resp : CheckoutResponse.t) (db' : database) :
  checkout regex_compile req db = (Return resp, db') ->
  exists (st st' : store) (c : CartDoc.t) (lines : list CartItem.t),
    db = Some st /\ db' = Some st' /\
    get_cart regex_compile (CheckoutRequest.cart_id req) db = Return c /\
    CartDoc.items c = Some (dump_item <$> lines) /\
    forall (i : nat) (p : ProductDoc.t),
      product st !! i = Some p ->
      (forall l, l ∈ lines ->
                 ObjectId_of_str (CartItem.product_id l)
                 <> Some (ProductDoc._id p)) ->
      product st' !! i = Some p.
Proof.
  intros Hrun.
  apply checkout_Return in Hrun
    as (items & placed & order_id & db1 & Hord & Hcreate & Hdec & _).
  apply checkout_order_Return in Hord
    as (oid & c & rest & ids & st & avg & Hoid & Hdocs & Hitems & Hne
        & Hids & -> & _ & _ & Horder).
  apply make_Order_lines in Horder as (lines & Hlines & _).
  apply mapM_validate_dump in Hlines.
  unfold create_document in Hcreate. injection Hcreate as <- <-.
  apply decrement_stock_Return in Hdec as (updates & Hupd & ->).
  eexists st, _, c, lines.
  split; [reflexivity|]. split; [reflexivity|]. split; [|split].
  - unfold get_cart. rewrite Hoid. cbn [bind]. rewrite Hdocs. reflexivity.
  - rewrite <- Hlines, <- Hitems.
    destruct (CartDoc.items c) as [its|]; [reflexivity|].
    simpl in Hitems. congruence.
  - intros i p Hi Hnot. cbn [product with_docs product_c order_c].
    apply stock_loop_other; [|exact Hi].
    intros u Hu Heq.
    rewrite Hlines, mapM_loop_line_dump in Hupd.
    destruct (order_line_ids lines updates Hupd u Hu) as (l & Hl & Hid).
    apply (Hnot l Hl). rewrite Hid, Heq. reflexivity.
Qed.

Lemma update_cart_then_get (cart_id : string) (items : list CartItem.t)
    (db db1 : database) :
  update_cart regex_compile cart_id items db = (Return true, db1) ->
  exists c, get_cart regex_compile cart_id db1 = Return c /\
            CartDoc.items c = Some (dump_item <$> items).
Proof.
  intros Hrun. destruct db as [st|]; [|discriminate].
  destruct (ObjectId_of_str cart_id) as [oid|] eqn:Hoid.
  2:{ unfold update_cart, to_obj_id in Hrun. rewrite Hoid in Hrun.
      discriminate. }
  rewrite (update_cart_Some _ _ _ _ _ Hoid) in Hrun.
  destruct (List.filter (has_id oid) (cart st)) as [|c0 rest] eqn:Hf.
  { rewrite (update_first_none _ _ _ Hf) in Hrun. discriminate. }
  destruct (update_first_insert (has_id oid)
              (set_items (dump_item <$> items)) (cart st))
    as (i & c & Hi & Hc & Hfi & Hu).
  { exists c0.
    assert (Hin : In c0 (List.filter (has_id oid) (cart st)))
      by (rewrite Hf; left; reflexivity).
    apply filter_In in Hin as [Hin Ht]. split; [|exact Ht].
    apply list_elem_of_In. exact Hin. }
  rewrite Hu in Hrun. cbv beta iota zeta in Hrun.
  change (1 =? 0) with false in Hrun. injection Hrun as <-.
  exists (set_items (dump_item <$> items) c). split; [|reflexivity].
  unfold get_cart, to_obj_id. rewrite Hoid. cbn [bind].
  rewrite (get_documents_by_id regex_compile cart_c oid).
  cbn [docs cart_c cart with_docs].
  rewrite (filter_insert_first _ _ _ _ _ Hi Hfi) by exact Hc.
  reflexivity.
Qed.

(** A checkout that follows an update of the cart orders what the update
    wrote: the order it appends holds exactly the items of the update's
    request body. *)
Theorem update_cart_then_checkout (req : CheckoutRequest.t)
    (items : list CartItem.t) (db db1 : database)
    (resp : CheckoutResponse.t) (db2 : database) :
  update_cart regex_compile (CheckoutRequest.cart_id req) items db
  = (Return true, db1) ->
  checkout regex_compile req db1 = (Return resp, db2) ->
  exists (st1 st2 : store) (oid : ObjectId) (placed : Order.t),
    db1 = Some st1 /\ db2 = Some st2 /\
    order st2 = order st1 ++ [Stored oid placed] /\
    Order.items placed = items /\
    forall l, l ∈ items -> 1 <= CartItem.quantity l.
Proof.
  intros Hupdate Hrun.
  destruct (update_cart_then_get _ _ _ _ Hupdate) as (c & Hget & Hc).
  apply checkout_Return in Hrun
    as (its & placed & order_id & db1' & Hord & Hcreate & Hdec & _).
  apply checkout_order_Return in Hord
    as (oid & c' & rest & ids & st1 & avg & Hoid & Hdocs & Hitems & Hne
        & Hids & -> & _ & _ & Horder).
  apply make_Order_Some in Horder as (Hlines & _).
  assert (Hcc : c' = c).
  { unfold get_cart in Hget. rewrite Hoid in Hget. cbn [bind] in Hget.
    rewrite Hdocs in Hget. injection Hget as ->. reflexivity. }
  subst c'. rewrite Hc in Hitems. simpl in Hitems. subst its.
  unfold create_document in Hcreate. injection Hcreate as <- <-.
  apply decrement_stock_Return in Hdec as (updates & Hupd & ->).
  assert (Hsame : Order.items placed = items).
  { pose proof (mapM_validate_dump _ _ Hlines) as Hd.
    symmetry. apply dump_item_inj. exact Hd. }
  eexists st1, _, _, placed.
  split; [reflexivity|]. split; [reflexivity|]. split; [reflexivity|].
  split; [exact Hsame|].
  intros l Hl. rewrite Hsame in Hlines. clear - Hlines Hl.
  revert Hlines. generalize items at 2 as out. intros out.
  revert out. induction items as [|x xs IH]; intros out Hm; [inversion Hl|].
  rewrite fmap_cons in Hm.
  apply mapM_cons_Some in Hm as (y & ys & Hy & Hys & ->).
  apply elem_of_cons in Hl as [->|Hl].
  - apply validate_CartItem_dump in Hy as [Hd Hq].
    assert (Hxy : [x] = [y])
      by (apply dump_item_inj; simpl; rewrite Hd; reflexivity).
    injection Hxy as ->. exact Hq.
  - apply (IH Hl ys Hys).
Qed.

End CheckoutFrame.

(** Two vases are ordered: the bowl is stored as before. *)
Lemma checkout_untouched_products_witness :
  exists st' : store,
    snd (checkout pcre_lite (Sample.request true false)
           (Sample.shop (Some [ItemDoc.mk "000000000000000000000001" (Some 2)])))
    = Some st' /\
    product st' !! 1%nat = Some Sample.bowl.
Proof.
  destruct (checkout_untouched_products pcre_lite (Sample.request true false)
              (Sample.shop
                 (Some [ItemDoc.mk "000000000000000000000001" (Some 2)]))
              (CheckoutResponse.mk "000000000000000000000001"
                 (Py.Float 35.2) "created")
              (snd (checkout pcre_lite (Sample.request true false)
                      (Sample.shop
                         (Some [ItemDoc.mk "000000000000000000000001"
                                  (Some 2)]))))
              ltac:(vm_compute; reflexivity))
    as (st & st' & c & lines & Hdb & Hdb' & Hcart & Hitems & Hkeep).
  injection Hdb as <-. exists st'. split; [exact Hdb'|].
  apply Hkeep; [reflexivity|].
  vm_compute in Hcart. injection Hcart as <-.
  cbn [CartDoc.items] in Hitems.
  destruct lines as [|[pid q] [|l' lines]]; try discriminate.
  injection Hitems as <- <-.
  intros l Hl. apply elem_of_cons in Hl as [->|Hl]; [discriminate|].
  inversion Hl.
Defined.

(** The cart of two vases is rewritten to three bowls and checked out:
    three bowls are ordered. *)
Lemma update_cart_then_checkout_witness :
  exists (st2 : store) (oid : ObjectId) (placed : Order.t),
    snd (checkout pcre_lite (Sample.request false false)
           (snd (update_cart pcre_lite "000000000000000000000010"
                   [CartItem.mk "000000000000000000000002" 3]
                   (Sample.shop
                      (Some [ItemDoc.mk "000000000000000000000001" (Some 2)])))))
    = Some st2 /\
    order st2 = [Stored oid placed] /\
    Order.items placed = [CartItem.mk "000000000000000000000002" 3].
Proof.
  destruct (update_cart_then_checkout pcre_lite (Sample.request false false)
              [CartItem.mk "000000000000000000000002" 3]
              (Sample.shop
                 (Some [ItemDoc.mk "000000000000000000000001" (Some 2)]))
              (snd (update_cart pcre_lite "000000000000000000000010"
                      [CartItem.mk "000000000000000000000002" 3]
                      (Sample.shop
                         (Some [ItemDoc.mk "000000000000000000000001"
                                  (Some 2)]))))
              (CheckoutResponse.mk "000000000000000000000001"
                 (Py.Float 82.5) "created")
              (snd (checkout pcre_lite (Sample.request false false)
                      (snd (update_cart pcre_lite "000000000000000000000010"
                              [CartItem.mk "000000000000000000000002" 3]
                              (Sample.shop
                                 (Some [ItemDoc.mk "000000000000000000000001"
                                          (Some 2)]))))))
              eq_refl ltac:(vm_compute; reflexivity))
    as (st1 & st2 & oid & placed & Hdb1 & Hdb2 & Horder & Hitems & _).
  exists st2, oid, placed. split; [exact Hdb2|]. split; [|exact Hitems].
  rewrite Horder. vm_compute in Hdb1. injection Hdb1 as <-. reflexivity.
Defined.
